(** * go-readability: the acquisition pipeline of [readability.go]

    A shallow embedding of [FromURL] and of the library calls it is made
    of, followed by the properties of the pipeline: URL validation,
    transport, encoding normalisation, media-type gate, dispatch to the
    extraction engine, and release of the response resources. *)

From Stdlib Require Import ZArith Lia Bool List Ascii String.
From Stdlib Require Strings.Byte.
From stdpp Require Import base option gmap strings.
Import ListNotations.

Local Open Scope string_scope.
Local Open Scope bool_scope.

(** ** Go values shared by all packages *)

(** Go's [error] values, as far as this package builds or receives them.
    [fmt_Errorf format args] is the value of [fmt.Errorf(format, args...)];
    its text is the format with every [%v] replaced by the text of the
    matching argument. *)
#[warnings="-register-all"]
Inductive error : Type :=
| errors_New (text : string)
| url_EscapeError (s : string)
| url_Error (Op URL : string) (Err : error)
| fmt_Errorf (format : string) (args : list error).

(** A Go pair [(value, err)] of which exactly one side is meaningful. *)
Inductive result (A : Type) : Type :=
| Ok (a : A)
| Err (e : error).
Arguments Ok {A} a.
Arguments Err {A} e.

Definition is_Ok {A} (r : result A) : bool :=
  match r with Ok _ => true | Err _ => false end.

(** ** Package [strings] (bytewise, as Go strings are byte sequences) *)
Module strings.

Fixpoint HasPrefix (s prefix : string) {struct prefix} : bool :=
  match prefix with
  | EmptyString => true
  | String b prefix' =>
      match s with
      | EmptyString => false
      | String a s' => Ascii.eqb a b && HasPrefix s' prefix'
      end
  end.

Fixpoint Contains (s substr : string) : bool :=
  HasPrefix s substr ||
  match s with
  | EmptyString => false
  | String _ s' => Contains s' substr
  end.

Fixpoint HasSuffixByte (s : string) (c : ascii) : bool :=
  match s with
  | EmptyString => false
  | String a EmptyString => Ascii.eqb a c
  | String _ s' => HasSuffixByte s' c
  end.

Fixpoint CountByte (s : string) (c : ascii) : nat :=
  match s with
  | EmptyString => 0
  | String a s' => (if Ascii.eqb a c then 1 else 0) + CountByte s' c
  end.

(** [strings.Cut(s, sep)] for a one-byte separator: the text before the
    first [sep], the text after it, and whether [sep] occurs. *)
Fixpoint CutByte (s : string) (sep : ascii) : string * string * bool :=
  match s with
  | EmptyString => (EmptyString, EmptyString, false)
  | String a s' =>
      if Ascii.eqb a sep then (EmptyString, s', true)
      else let '(before, after, found) := CutByte s' sep in
           (String a before, after, found)
  end.

(** [s[:len(s)-1]] *)
Fixpoint dropLast (s : string) : string :=
  match s with
  | EmptyString => EmptyString
  | String _ EmptyString => EmptyString
  | String a s' => String a (dropLast s')
  end.

Definition lowerByte (c : ascii) : ascii :=
  let n := nat_of_ascii c in
  if (65 <=? n)%nat && (n <=? 90)%nat then ascii_of_nat (n + 32) else c.

(** [strings.ToLower] on ASCII text (the only text it is applied to
    here is a scheme, which [getScheme] restricts to ASCII). *)
Fixpoint ToLower (s : string) : string :=
  match s with
  | EmptyString => EmptyString
  | String a s' => String (lowerByte a) (ToLower s')
  end.

End strings.

(** ** Package [net/url]: [ParseRequestURI] *)
Module nurl.

Record Userinfo : Type := mkUserinfo {
  username : string;
  password : string;
  passwordSet : bool
}.

(** The fields of [url.URL] that [parse] assigns ([RawPath], a hint on
    the encoding of [Path], is left out). *)
Record URL : Type := mkURL {
  Scheme : string;
  Opaque : string;
  User : option Userinfo;
  Host : string;
  Path : string;
  OmitHost : bool;
  ForceQuery : bool;
  RawQuery : string
}.

Definition emptyURL : URL :=
  mkURL "" "" None "" "" false false "".

Definition byteIn (lo hi : nat) (c : ascii) : bool :=
  (lo <=? nat_of_ascii c)%nat && (nat_of_ascii c <=? hi)%nat.

Definition isLetter (c : ascii) : bool := byteIn 97 122 c || byteIn 65 90 c.
Definition isDigit (c : ascii) : bool := byteIn 48 57 c.

(** [stringContainsCTLByte]: a byte below [' '] or equal to [0x7f]. *)
Fixpoint stringContainsCTLByte (s : string) : bool :=
  match s with
  | EmptyString => false
  | String c s' =>
      (nat_of_ascii c <? 32)%nat || (nat_of_ascii c =? 127)%nat
      || stringContainsCTLByte s'
  end.

(** The loop of [getScheme]; [i] is the index of the first byte of [s]
    in [rawURL]. *)
Fixpoint getScheme_from (i : nat) (s rawURL : string) : result (string * string) :=
  match s with
  | EmptyString => Ok (EmptyString, rawURL)
  | String c s' =>
      if isLetter c then getScheme_from (S i) s' rawURL
      else if isDigit c || Ascii.eqb c "+" || Ascii.eqb c "-" || Ascii.eqb c "." then
        if (i =? 0)%nat then Ok (EmptyString, rawURL)
        else getScheme_from (S i) s' rawURL
      else if Ascii.eqb c ":" then
        if (i =? 0)%nat then Err (errors_New "missing protocol scheme")
        else Ok (substring 0 i rawURL, s')
      else Ok (EmptyString, rawURL)
  end.

Definition getScheme (rawURL : string) : result (string * string) :=
  getScheme_from 0 rawURL rawURL.

(** The text starts with a scheme and its colon. *)
Definition hasScheme (rawURL : string) : bool :=
  match getScheme rawURL with
  | Ok (String _ _, _) => true
  | _ => false
  end.

Definition ishex (c : ascii) : bool :=
  byteIn 48 57 c || byteIn 97 102 c || byteIn 65 70 c.

Definition unhex (c : ascii) : nat :=
  let n := nat_of_ascii c in
  if byteIn 48 57 c then n - 48
  else if byteIn 97 102 c then n - 97 + 10
  else if byteIn 65 70 c then n - 65 + 10
  else 0.

(** [unescape(s, encodePath)]: every [%] must be followed by two
    hexadecimal digits; the first one that is not gives an
    [EscapeError] carrying at most three bytes from it on. In this
    mode [+] and all other bytes stand for themselves. *)
Fixpoint unescape_encodePath (s : string) : result string :=
  match s with
  | EmptyString => Ok EmptyString
  | String c t =>
      if Ascii.eqb c "%" then
        match t with
        | String a (String b rest) =>
            if ishex a && ishex b then
              match unescape_encodePath rest with
              | Ok r => Ok (String (ascii_of_nat (unhex a * 16 + unhex b)) r)
              | Err e => Err e
              end
            else Err (url_EscapeError (substring 0 3 s))
        | _ => Err (url_EscapeError (substring 0 3 s))
        end
      else
        match unescape_encodePath t with
        | Ok r => Ok (String c r)
        | Err e => Err e
        end
  end.

Section Parse.

(** [parseAuthority] (user information, host and port syntax) is
    left to the library. It is given the scheme (in lower case, as the
    URL holds it by then) next to the authority text: later versions of
    [net/url] consult it, earlier ones look at the text alone. *)
Variable parseAuthority : string -> string -> result (option Userinfo * string).

(** The method [setPath] of [URL]. *)
Definition setPath (u : URL) (p : string) : result URL :=
  match unescape_encodePath p with
  | Err e => Err e
  | Ok path =>
      Ok (mkURL (Scheme u) (Opaque u) (User u) (Host u) path
                (OmitHost u) (ForceQuery u) (RawQuery u))
  end.

(** The tail of [parse], from the authority test on. *)
Definition parseHierarchy (viaRequest : bool) (u : URL) (rest : string) : result URL :=
  if (negb (String.eqb (Scheme u) "")
      || negb viaRequest && negb (strings.HasPrefix rest "///"))
     && strings.HasPrefix rest "//"
  then
    let after := substring 2 (String.length rest - 2) rest in
    let '(authority, tail, found) := strings.CutByte after "/" in
    let rest' := if found then String "/" tail else EmptyString in
    match parseAuthority (Scheme u) authority with
    | Err e => Err e
    | Ok (user, host) =>
        setPath (mkURL (Scheme u) (Opaque u) user host (Path u)
                       (OmitHost u) (ForceQuery u) (RawQuery u)) rest'
    end
  else if negb (String.eqb (Scheme u) "") && strings.HasPrefix rest "/" then
    setPath (mkURL (Scheme u) (Opaque u) (User u) (Host u) (Path u)
                   true (ForceQuery u) (RawQuery u)) rest
  else setPath u rest.

Definition parse (rawURL : string) (viaRequest : bool) : result URL :=
  if stringContainsCTLByte rawURL then
    Err (errors_New "net/url: invalid control character in URL")
  else if String.eqb rawURL "" && viaRequest then
    Err (errors_New "empty url")
  else if String.eqb rawURL "*" then
    Ok (mkURL "" "" None "" "*" false false "")
  else
    match getScheme rawURL with
    | Err e => Err e
    | Ok (scheme, rest) =>
        let scheme := strings.ToLower scheme in
        let '(rest, forceQuery, rawQuery) :=
          if strings.HasSuffixByte rest "?" && (strings.CountByte rest "?" =? 1)%nat
          then (strings.dropLast rest, true, EmptyString)
          else let '(before, after, _) := strings.CutByte rest "?" in
               (before, false, after) in
        let u := mkURL scheme "" None "" "" false forceQuery rawQuery in
        if negb (strings.HasPrefix rest "/") then
          if negb (String.eqb scheme "") then
            Ok (mkURL scheme rest None "" "" false forceQuery rawQuery)
          else if viaRequest then
            Err (errors_New "invalid URI for request")
          else if strings.Contains (strings.CutByte rest "/").1.1 ":" then
            Err (errors_New "first path segment in URL cannot contain colon")
          else parseHierarchy viaRequest u rest
        else parseHierarchy viaRequest u rest
    end.

Definition ParseRequestURI (rawURL : string) : result URL :=
  match parse rawURL true with
  | Err e => Err (url_Error "parse" rawURL e)
  | Ok u => Ok u
  end.

End Parse.

End nurl.

(** ** Bytes and package [io] *)

Abbreviation byte := Init.Byte.byte.

Definition byteZ (b : byte) : Z := Z.of_N (Strings.Byte.to_N b).

Module io.

Definition EOF : error := errors_New "EOF".
Definition ErrUnexpectedEOF : error := errors_New "unexpected EOF".

(** [io.ReadFull(r, buf[:n])] on the bytes [r] still to come: the [n]
    bytes read and the bytes left; [EOF] when nothing could be read,
    [ErrUnexpectedEOF] when the input ends part-way. *)
Definition ReadFull (n : nat) (r : list byte) : result (list byte * list byte) :=
  if (n =? 0)%nat then Ok ([], r)
  else if (length r =? 0)%nat then Err EOF
  else if (length r <? n)%nat then Err ErrUnexpectedEOF
  else Ok (firstn n r, skipn n r).

(** A stream as its consumer sees it: the bytes it yields, and the
    error that ends it ([None] for a clean end of file). *)
Definition stream : Type := list byte * option error.

End io.

Definition error_eqb_EOF (e : error) : bool :=
  match e with
  | errors_New t => String.eqb t "EOF"
  | _ => false
  end.

(** ** Package [hash/crc32] (IEEE polynomial, bit by bit) *)
Module crc32.

Definition step (crc : Z) : Z :=
  if Z.testbit crc 0 then Z.lxor (Z.shiftr crc 1) 3988292384
  else Z.shiftr crc 1.

Definition updateByte (crc : Z) (b : byte) : Z :=
  Nat.iter 8 step (Z.lxor crc (byteZ b)).

Definition Update (crc : Z) (p : list byte) : Z :=
  Z.lxor (fold_left updateByte p (Z.lxor crc 4294967295)) 4294967295.

Definition ChecksumIEEE (p : list byte) : Z := Update 0 p.

(** A [uint32]. *)
Definition word32 (x : Z) : Prop := (0 <= x < 4294967296)%Z.

End crc32.

(** ** Package [compress/gzip]: the reader *)
Module gzip.

Definition ErrHeader : error := errors_New "gzip: invalid header".
Definition ErrChecksum : error := errors_New "gzip: invalid checksum".

Definition noEOF (e : error) : error :=
  if error_eqb_EOF e then io.ErrUnexpectedEOF else e.

Definition flagHdrCrc : Z := 2.
Definition flagExtra : Z := 4.
Definition flagName : Z := 8.
Definition flagComment : Z := 16.

Definition hasFlag (flg mask : Z) : bool := negb (Z.land flg mask =? 0)%Z.

Definition at_ (buf : list byte) (i : nat) : Z :=
  byteZ (nth i buf Init.Byte.x00).

Definition le_Uint16 (buf : list byte) : Z := (at_ buf 0 + 256 * at_ buf 1)%Z.
Definition le_Uint32 (buf : list byte) : Z :=
  (at_ buf 0 + 256 * at_ buf 1 + 65536 * at_ buf 2 + 16777216 * at_ buf 3)%Z.

(** [readString]: a NUL-terminated field of at most 512 bytes. The
    bytes returned include the terminator, which the digest covers. *)
Fixpoint readString (i : nat) (r : list byte) : result (list byte * list byte) :=
  if (512 <=? i)%nat then Err ErrHeader
  else match r with
       | [] => Err io.EOF
       | b :: r' =>
           if (byteZ b =? 0)%Z then Ok ([b], r')
           else match readString (S i) r' with
                | Ok (s, rest) => Ok (b :: s, rest)
                | Err e => Err e
                end
       end.

Definition readExtra (flg : Z) (st : Z * list byte) : result (Z * list byte) :=
  let '(digest, r) := st in
  if hasFlag flg flagExtra then
    match io.ReadFull 2 r with
    | Err e => Err (noEOF e)
    | Ok (len, r) =>
        let digest := crc32.Update digest len in
        match io.ReadFull (Z.to_nat (le_Uint16 len)) r with
        | Err e => Err (noEOF e)
        | Ok (data, r) => Ok (crc32.Update digest data, r)
        end
    end
  else Ok st.

Definition readField (flg mask : Z) (st : Z * list byte) : result (Z * list byte) :=
  let '(digest, r) := st in
  if hasFlag flg mask then
    match readString 0 r with
    | Err e => Err (noEOF e)
    | Ok (s, r) => Ok (crc32.Update digest s, r)
    end
  else Ok st.

Definition readHdrCrc (flg : Z) (st : Z * list byte) : result (list byte) :=
  let '(digest, r) := st in
  if hasFlag flg flagHdrCrc then
    match io.ReadFull 2 r with
    | Err e => Err (noEOF e)
    | Ok (buf, r) =>
        if (le_Uint16 buf =? digest mod 65536)%Z then Ok r else Err ErrHeader
    end
  else Ok r.

(** [readHeader]: the bytes that follow the member header, or why the
    header is not one. *)
Definition readHeader (r : list byte) : result (list byte) :=
  match io.ReadFull 10 r with
  | Err e => Err e
  | Ok (buf, r) =>
      if negb ((at_ buf 0 =? 31)%Z && (at_ buf 1 =? 139)%Z && (at_ buf 2 =? 8)%Z)
      then Err ErrHeader
      else
        let flg := at_ buf 3 in
        match readExtra flg (crc32.ChecksumIEEE buf, r) with
        | Err e => Err e
        | Ok st =>
            match readField flg flagName st with
            | Err e => Err e
            | Ok st =>
                match readField flg flagComment st with
                | Err e => Err e
                | Ok st => readHdrCrc flg st
                end
            end
        end
  end.

(** A [gzip.Reader]: the input that follows the header it has read. *)
Record Reader : Type := mkReader { src : list byte }.

Definition NewReader (r : list byte) : result Reader :=
  match readHeader r with
  | Err e => Err e
  | Ok rest => Ok (mkReader rest)
  end.

Section Read.

(** The DEFLATE decompressor of [compress/flate], left to the
    library: on the input that follows a header it gives the bytes
    it produced and either the number of input bytes the compressed
    stream occupies or the error that stopped it. *)
Variable inflate : list byte -> list byte * result nat.

(** What successive [Read] calls deliver: every member is inflated,
    its trailer (CRC-32 and size of the output) is checked, and
    another header is looked for, until the input ends. *)
Fixpoint readMembers (fuel : nat) (r : list byte) : io.stream :=
  match fuel with
  | O => ([], Some io.ErrUnexpectedEOF)
  | S fuel =>
      let '(out, used) := inflate r in
      match used with
      | Err e => (out, Some e)
      | Ok n =>
          match io.ReadFull 8 (skipn n r) with
          | Err e => (out, Some (noEOF e))
          | Ok (buf, r') =>
              if negb ((le_Uint32 (firstn 4 buf) =? crc32.ChecksumIEEE out)%Z
                       && (le_Uint32 (skipn 4 buf) =? Z.of_nat (length out) mod 4294967296)%Z)
              then (out, Some ErrChecksum)
              else
                match readHeader r' with
                | Err e => (out, if error_eqb_EOF e then None else Some e)
                | Ok r'' =>
                    let '(more, e) := readMembers fuel r'' in
                    ((out ++ more)%list, e)
                end
          end
      end
  end.

Definition ReadAll (z : Reader) : io.stream :=
  readMembers (S (length (src z))) (src z).

(** [payload] is a gzip file whose content is [data]: the reader opens
    on it and yields [data] up to a clean end of file. *)
Definition decodes (payload data : list byte) : Prop :=
  exists z, NewReader payload = Ok z /\ ReadAll z = (data, None).

(** [payload] is not a gzip file: the reader does not open on it, or
    the stream it yields ends in an error. *)
Definition corrupt (payload : list byte) : Prop :=
  match NewReader payload with
  | Err _ => True
  | Ok z => (ReadAll z).2 <> None
  end.

End Read.

End gzip.

(** ** Package [net/http] *)
Module http.

(** [http.Header] is a [map[string][]string]. The two keys read and
    the one key written by this package are literals already in
    canonical MIME form, which [Get] and [Set] therefore leave as
    they are. *)
Abbreviation Header := (gmap string (list string)).

Definition Header_Get (h : Header) (key : string) : string :=
  match h !! key with
  | Some (v :: _) => v
  | _ => EmptyString
  end.

Definition Header_Set (h : Header) (key value : string) : Header :=
  <[key := [value]]> h.

Record Request : Type := mkRequest {
  Method : string;
  URL : nurl.URL;
  ReqHeader : Header
}.

(** A response as [client.Do] returns it. [Body] holds the bytes the
    body stream yields; [LastURL] is the URL of the request that
    obtained this response (the last one after redirects). *)
Record Response : Type := mkResponse {
  StatusCode : Z;
  RespHeader : Header;
  Body : list byte;
  LastURL : nurl.URL
}.

Definition Request_SetHeader (req : Request) (key value : string) : Request :=
  mkRequest (Method req) (URL req) (Header_Set (ReqHeader req) key value).

Definition setStatusCode (code : Z) (resp : Response) : Response :=
  mkResponse code (RespHeader resp) (Body resp) (LastURL resp).

Definition setLastURL (u : nurl.URL) (resp : Response) : Response :=
  mkResponse (StatusCode resp) (RespHeader resp) (Body resp) u.

End http.

(** ** What the pipeline depends on

    The library routines whose bodies are outside this package, and the
    extraction engine ([Parser], with its [Article]), are gathered in
    one record. *)
Record Env (Article : Type) : Type := mkEnv {
  (** [net/url]: authority syntax, used by [ParseRequestURI]. *)
  parseAuthority : string -> string -> result (option nurl.Userinfo * string);
  (** [net/url.Parse], used by [http.NewRequest]. *)
  url_Parse : string -> result nurl.URL;
  (** [Do] of an [http.Client] with the given [Timeout]. *)
  client_Do : Z -> http.Request -> result http.Response;
  (** [compress/flate] decompression. *)
  inflate : list byte -> list byte * result nat;
  (** [Parser.Parse], as a function of what its reader yields. *)
  parser_Parse : io.stream -> nurl.URL -> Article * option error;
  (** [Article{}] *)
  Article_zero : Article
}.
Arguments parseAuthority {Article} _ _ _.
Arguments url_Parse {Article} _ _.
Arguments client_Do {Article} _ _ _.
Arguments inflate {Article} _ _.
Arguments parser_Parse {Article} _ _ _.
Arguments Article_zero {Article} _.

(** ** Package [readability]: [FromURL] *)
Module readability.

(** The two [Close] calls that [FromURL] defers. *)
Inductive closer : Type :=
| Body_Close
| GzipReader_Close.

(** The calls [FromURL] makes to the outside, in the order made. *)
Inductive event : Type :=
| NewRequest_call (method url : string)
| Do_call (timeout : Z) (req : http.Request)
| NewReader_call (body : list byte)
| Parse_call (input : io.stream) (pageURL : nurl.URL)
| Close_call (c : closer).

(** The [return] statement a call leaves through, by its line in
    [readability.go]. *)
Inductive exit : Type :=
| line43   (* failed to parse URL *)
| line50   (* failed to create request *)
| line58   (* failed to fetch the page *)
| line69   (* failed to create gzip reader *)
| line80   (* URL is not a HTML document *)
| line85.  (* return parser.Parse(reader, parsedURL) *)

(** The classes of failure, named as in the design of the pipeline. *)
Inductive ErrorKind : Type :=
| InvalidURL
| RequestBuildError
| FetchError
| DecodeError
| UnsupportedContentType
| ParseError.

(** An activation of a Go function: the calls made so far and the
    stack of deferred calls, most recent first. *)
Record frame : Type := mkFrame {
  trace : list event;
  deferred : list closer
}.

Definition M (A : Type) : Type := frame -> A * frame.

#[local] Instance M_ret : MRet M := fun A a fr => (a, fr).
#[local] Instance M_bind : MBind M :=
  fun A B f m fr => let '(a, fr') := m fr in f a fr'.

Definition emit (e : event) : M unit :=
  fun fr => (tt, mkFrame (trace fr ++ [e])%list (deferred fr)).

(** [defer c.Close()] *)
Definition defer (c : closer) : M unit :=
  fun fr => (tt, mkFrame (trace fr) (c :: deferred fr)).

(** A whole call: the body runs in a fresh frame, then the deferred
    calls run, last deferred first, and their results are dropped. *)
Definition call {A} (body : M A) : A * list event :=
  let '(a, fr) := body (mkFrame [] []) in
  (a, (trace fr ++ map Close_call (deferred fr))%list).

(** The [io.Reader] handed on by the encoding switch. *)
Inductive Reader : Type :=
| BodyReader (body : list byte)
| GzipReader (z : gzip.Reader).

Section Pipeline.

Context {Article : Type} (E : Env Article).

Record outcome : Type := mkOutcome {
  left_at : exit;
  article : Article;
  err : option error
}.

Definition classify (o : outcome) : option ErrorKind :=
  match left_at o with
  | line43 => Some InvalidURL
  | line50 => Some RequestBuildError
  | line58 => Some FetchError
  | line69 => Some DecodeError
  | line80 => Some UnsupportedContentType
  | line85 => match err o with Some _ => Some ParseError | None => None end
  end.

Definition Reader_ReadAll (r : Reader) : io.stream :=
  match r with
  | BodyReader body => (body, None)
  | GzipReader z => gzip.ReadAll (inflate E) z
  end.

(** [http.NewRequest(method, url, nil)] for a valid method. *)
Definition http_NewRequest (method url : string) : M (result http.Request) :=
  emit (NewRequest_call method url);;
  mret (match url_Parse E url with
        | Err e => Err e
        | Ok u => Ok (http.mkRequest method u ∅)
        end).

(** [client.Do(req)] with [client := &http.Client{Timeout: timeout}] *)
Definition Client_Do (timeout : Z) (req : http.Request) : M (result http.Response) :=
  emit (Do_call timeout req);;
  mret (client_Do E timeout req).

Definition gzip_NewReader (body : list byte) : M (result gzip.Reader) :=
  emit (NewReader_call body);;
  mret (gzip.NewReader body).

(** [NewParser().Parse(reader, pageURL)] *)
Definition Parser_Parse (reader : Reader) (pageURL : nurl.URL) : M (Article * option error) :=
  emit (Parse_call (Reader_ReadAll reader) pageURL);;
  mret (parser_Parse E (Reader_ReadAll reader) pageURL).

Definition fail (at_line : exit) (e : error) : M outcome :=
  mret (mkOutcome at_line (Article_zero E) (Some e)).

Definition FromURL_body (pageURL : string) (timeout : Z) : M outcome :=
  (* Make sure URL is valid *)
  match nurl.ParseRequestURI (parseAuthority E) pageURL with
  | Err err => fail line43 (fmt_Errorf "failed to parse URL: %v" [err])
  | Ok parsedURL =>
      (* Fetch page from URL *)
      req ← http_NewRequest "GET" pageURL;
      match req with
      | Err err => fail line50 (fmt_Errorf "failed to create request: %v" [err])
      | Ok req =>
          (* Set Accept-Encoding header to indicate support for gzip *)
          let req := http.Request_SetHeader req "Accept-Encoding" "gzip" in
          resp ← Client_Do timeout req;
          match resp with
          | Err err => fail line58 (fmt_Errorf "failed to fetch the page: %v" [err])
          | Ok resp =>
              defer Body_Close;;
              (* [checked] is what follows the switch (lines 77 to 85);
                 both of its arms run into it. *)
              let checked (reader : Reader) : M outcome :=
                (* Make sure content type is HTML *)
                let cp := http.Header_Get (http.RespHeader resp) "Content-Type" in
                if negb (strings.Contains cp "text/html") then
                  fail line80 (fmt_Errorf "URL is not a HTML document" [])
                else
                  (* Parse content *)
                  r ← Parser_Parse reader parsedURL;
                  mret (mkOutcome line85 r.1 r.2) in
              (* Check if the content is encoded with gzip *)
              if String.eqb (http.Header_Get (http.RespHeader resp) "Content-Encoding") "gzip"
              then
                z ← gzip_NewReader (http.Body resp);
                match z with
                | Err err => fail line69 (fmt_Errorf "failed to create gzip reader: %v" [err])
                | Ok z => defer GzipReader_Close;; checked (GzipReader z)
                end
              else checked (BodyReader (http.Body resp))
          end
      end
  end.

(** [FromURL(pageURL, timeout)]: what it returns and the calls it
    made. *)
Definition FromURL (pageURL : string) (timeout : Z) : outcome * list event :=
  call (FromURL_body pageURL timeout).

(** The request [FromURL] sends for the parsed URL [u]. *)
Definition request_for (u : nurl.URL) : http.Request :=
  http.Request_SetHeader (http.mkRequest "GET" u ∅) "Accept-Encoding" "gzip".

(** The call reaches line 60: the URL is valid, the request for [u] is
    built, and the client answers it with [resp]. *)
Definition obtains (pageURL : string) (timeout : Z)
    (parsedURL u : nurl.URL) (resp : http.Response) : Prop :=
  nurl.ParseRequestURI (parseAuthority E) pageURL = Ok parsedURL /\
  url_Parse E pageURL = Ok u /\
  client_Do E timeout (request_for u) = Ok resp.

(** The same environment with the status code of every response
    replaced. *)
Definition withStatus (f : http.Response -> Z) : Env Article :=
  mkEnv Article (parseAuthority E) (url_Parse E)
    (fun timeout req =>
       match client_Do E timeout req with
       | Ok resp => Ok (http.setStatusCode (f resp) resp)
       | Err e => Err e
       end)
    (inflate E) (parser_Parse E) (Article_zero E).

(** The same environment with the last URL of every response replaced
    (as redirects would). *)
Definition withLastURL (f : http.Response -> nurl.URL) : Env Article :=
  mkEnv Article (parseAuthority E) (url_Parse E)
    (fun timeout req =>
       match client_Do E timeout req with
       | Ok resp => Ok (http.setLastURL (f resp) resp)
       | Err e => Err e
       end)
    (inflate E) (parser_Parse E) (Article_zero E).

End Pipeline.

Arguments mkOutcome {Article} _ _ _.
Arguments left_at {Article} _.
Arguments article {Article} _.
Arguments err {Article} _.

(** The condition of the encoding switch (line 64) and of the
    content-type test (line 79). *)
Definition declaresGzip (resp : http.Response) : bool :=
  String.eqb (http.Header_Get (http.RespHeader resp) "Content-Encoding") "gzip".

Definition declaresHTML (resp : http.Response) : bool :=
  strings.Contains (http.Header_Get (http.RespHeader resp) "Content-Type") "text/html".

(** What a trace says was handed to the engine, and what was closed. *)
Fixpoint parse_calls (tr : list event) : list (io.stream * nurl.URL) :=
  match tr with
  | [] => []
  | Parse_call input u :: tr => (input, u) :: parse_calls tr
  | _ :: tr => parse_calls tr
  end.

Fixpoint closes (tr : list event) : list closer :=
  match tr with
  | [] => []
  | Close_call c :: tr => c :: closes tr
  | _ :: tr => closes tr
  end.

Fixpoint wraps (tr : list event) : list (list byte) :=
  match tr with
  | [] => []
  | NewReader_call body :: tr => body :: wraps tr
  | _ :: tr => wraps tr
  end.

End readability.

(** ** A stand-in environment

    A fake transport that answers every [http] or [https] request with
    one fixed response, an engine that returns what it read, and a
    decompressor for stored DEFLATE blocks. It is what the properties
    below are exercised on. *)
Module Harness.

Record page : Type := mkPage {
  content : list byte;
  base : nurl.URL
}.

Definition ofZ (z : Z) : byte :=
  match Strings.Byte.of_N (Z.to_N (z mod 256)) with
  | Some b => b
  | None => Init.Byte.x00
  end.

Definition le16 (z : Z) : list byte := [ofZ z; ofZ (z / 256)].

Definition le32 (z : Z) : list byte :=
  [ofZ z; ofZ (z / 256); ofZ (z / 65536); ofZ (z / 16777216)].

Definition bytes (s : string) : list byte :=
  map (fun c => ofZ (Z.of_nat (nat_of_ascii c))) (list_ascii_of_string s).

(** A member header with no flag set: ID1 ID2 CM FLG MTIME(4) XFL OS. *)
Definition plainHeader : list byte :=
  map ofZ [31; 139; 8; 0; 0; 0; 0; 0; 0; 255]%Z.

(** A gzip member holding [data] (fewer than 65536 bytes) in one stored
    block. *)
Definition stored (data : list byte) : list byte :=
  (plainHeader ++ [ofZ 1] ++ le16 (Z.of_nat (length data))
     ++ le16 (65535 - Z.of_nat (length data)) ++ data
     ++ le32 (crc32.ChecksumIEEE data) ++ le32 (Z.of_nat (length data)))%list.

Definition CorruptInputError : error := errors_New "flate: corrupt input".

(** Stored blocks only: any other block type is refused. *)
Fixpoint inflateStored (fuel : nat) (r : list byte) : list byte * result nat :=
  match fuel with
  | O => ([], Err io.ErrUnexpectedEOF)
  | S fuel =>
      match r with
      | [] => ([], Err io.ErrUnexpectedEOF)
      | b0 :: r1 =>
          if negb (Z.land (byteZ b0) 6 =? 0)%Z then ([], Err CorruptInputError)
          else
            match r1 with
            | l0 :: l1 :: n0 :: n1 :: r' =>
                let len := Z.to_nat (gzip.le_Uint16 [l0; l1]) in
                if negb (gzip.le_Uint16 [n0; n1] =? 65535 - gzip.le_Uint16 [l0; l1])%Z
                then ([], Err CorruptInputError)
                else if (length r' <? len)%nat then (r', Err io.ErrUnexpectedEOF)
                else if Z.testbit (byteZ b0) 0 then (firstn len r', Ok (5 + len)%nat)
                else
                  let '(more, used) := inflateStored fuel (skipn len r') in
                  ((firstn len r' ++ more)%list,
                   match used with
                   | Ok n => Ok (5 + len + n)%nat
                   | Err e => Err e
                   end)
            | _ => ([], Err io.ErrUnexpectedEOF)
            end
      end
  end.

Definition hostByte (c : ascii) : bool :=
  nurl.isLetter c || nurl.isDigit c || Ascii.eqb c "." || Ascii.eqb c "-".

Fixpoint allBytes (p : ascii -> bool) (s : string) : bool :=
  match s with
  | EmptyString => true
  | String c s' => p c && allBytes p s'
  end.

(** Authorities that are a plain host name, under any scheme; anything
    else is refused. *)
Definition hostOnly (scheme authority : string)
  : result (option nurl.Userinfo * string) :=
  if allBytes hostByte authority then Ok (None, authority)
  else Err (errors_New "authority not supported").

(** [url.Parse] for text without a fragment. *)
Definition parseNoFragment (rawURL : string) : result nurl.URL :=
  if strings.Contains rawURL "#" then Err (errors_New "fragment not supported")
  else match nurl.parse hostOnly rawURL false with
       | Err e => Err (url_Error "parse" rawURL e)
       | Ok u => Ok u
       end.

Definition serve (resp : http.Response) (timeout : Z) (req : http.Request)
  : result http.Response :=
  if String.eqb (nurl.Scheme (http.URL req)) "http"
     || String.eqb (nurl.Scheme (http.URL req)) "https"
  then Ok resp
  else Err (errors_New "unsupported protocol scheme").

Definition engine (input : io.stream) (pageURL : nurl.URL) : page * option error :=
  match input.2 with
  | Some e => (mkPage [] nurl.emptyURL, Some (fmt_Errorf "failed to parse input: %v" [e]))
  | None => (mkPage input.1 pageURL, None)
  end.

Definition world (resp : http.Response) : Env page :=
  mkEnv page hostOnly parseNoFragment (serve resp)
        (fun r => inflateStored (length r) r) engine
        (mkPage [] nurl.emptyURL).

Definition headers (contentType contentEncoding : option string) : http.Header :=
  let h := match contentType with
           | Some v => <["Content-Type" := [v]]> ∅
           | None => ∅
           end in
  match contentEncoding with
  | Some v => <["Content-Encoding" := [v]]> h
  | None => h
  end.

Definition respond (code : Z) (contentType contentEncoding : option string)
    (body : list byte) (last : nurl.URL) : http.Response :=
  http.mkResponse code (headers contentType contentEncoding) body last.

Definition exampleURL : nurl.URL :=
  nurl.mkURL "http" "" None "example.com" "/a" false false "".

Definition movedURL : nurl.URL :=
  nurl.mkURL "https" "" None "www.example.com" "/b" false false "".

Definition address : string := "http://example.com/a".

(** Sample responses. The request is for [address]; the responses that
    carry [movedURL] are those of a redirected request. *)
Definition htmlGzip : http.Response :=
  respond 200 (Some "text/html; charset=utf-8") (Some "gzip")
    (stored (bytes "<p>hi</p>")) movedURL.

Definition htmlIdentity : http.Response :=
  respond 404 (Some "text/html") None (bytes "<p>gone</p>") exampleURL.

Definition htmlDeflate : http.Response :=
  respond 200 (Some "text/html") (Some "deflate") (bytes "<p>hi</p>") exampleURL.

Definition plainIdentity : http.Response :=
  respond 200 (Some "text/plain") None (bytes "hello world") exampleURL.

Definition plainNotGzip : http.Response :=
  respond 200 (Some "text/plain") (Some "gzip") (bytes "hello world") exampleURL.

(** A well-formed member header followed by a block of the reserved
    type: the reader opens, and its first read fails. *)
Definition brokenStream : list byte := (plainHeader ++ [ofZ 7])%list.

Definition plainBrokenStream : http.Response :=
  respond 200 (Some "text/plain") (Some "gzip") brokenStream exampleURL.

Definition htmlBrokenStream : http.Response :=
  respond 200 (Some "text/html") (Some "gzip") brokenStream exampleURL.

Definition unlabelled : http.Response :=
  respond 200 None None (bytes "<p>hi</p>") exampleURL.

End Harness.

(** ** Package [readability]: [FromReader], and more to observe a call by *)
Module surface.

Import readability.

Section Surface.

Context {Article : Type} (E : Env Article).

(** [FromReader(input, pageURL)]: [NewParser().Parse(input, pageURL)],
    on what [input] yields. *)
Definition FromReader (input : io.stream) (pageURL : nurl.URL) : Article * option error :=
  parser_Parse E input pageURL.

(** The same environment with another decompressor and another engine. *)
Definition withEngine (inflate' : list byte -> list byte * result nat)
    (parse' : io.stream -> nurl.URL -> Article * option error) : Env Article :=
  mkEnv Article (parseAuthority E) (url_Parse E) (client_Do E)
    inflate' parse' (Article_zero E).

(** The same environment with every response passed through [f]. *)
Definition mapResponse (f : http.Response -> http.Response) : Env Article :=
  mkEnv Article (parseAuthority E) (url_Parse E)
    (fun timeout req =>
       match client_Do E timeout req with
       | Ok resp => Ok (f resp)
       | Err e => Err e
       end)
    (inflate E) (parser_Parse E) (Article_zero E).

End Surface.

(** The requests a trace says were built and sent. *)
Fixpoint builds (tr : list event) : list (string * string) :=
  match tr with
  | [] => []
  | NewRequest_call method url :: tr => (method, url) :: builds tr
  | _ :: tr => builds tr
  end.

Fixpoint requests (tr : list event) : list (Z * http.Request) :=
  match tr with
  | [] => []
  | Do_call timeout req :: tr => (timeout, req) :: requests tr
  | _ :: tr => requests tr
  end.

(** The place of a call in the text of [FromURL]; the deferred closes
    come last, the one deferred later first. *)
Definition stage (e : event) : nat :=
  match e with
  | NewRequest_call _ _ => 0
  | Do_call _ _ => 1
  | NewReader_call _ => 2
  | Parse_call _ _ => 3
  | Close_call GzipReader_Close => 4
  | Close_call Body_Close => 5
  end.

Fixpoint increasing (l : list nat) : bool :=
  match l with
  | a :: (b :: _) as l' => (a <? b)%nat && increasing l'
  | _ => true
  end.

(** A response that differs from the one served in everything
    [FromURL] does not read: status, another header, last URL. *)
Definition relabel (resp : http.Response) : http.Response :=
  http.mkResponse 503 (<["Server" := ["stand-in"]]> (http.RespHeader resp))
    (http.Body resp) Harness.movedURL.

Definition notGzipMagic : http.Response :=
  Harness.respond 200 (Some "text/html") (Some "gzip")
    (Harness.bytes "<html><body>plain</body></html>") Harness.exampleURL.

Definition shortGzip : http.Response :=
  Harness.respond 200 (Some "text/html") (Some "gzip")
    (Harness.bytes "short") Harness.exampleURL.

(** [url.Parse]: the fragment is cut off and unescaped apart (in the
    mode for fragments, which checks and decodes as the mode for paths
    does); the [Fragment] field it fills is left out of [nurl.URL]. *)
Definition nurl_Parse
    (parseAuthority : string -> string -> result (option nurl.Userinfo * string))
    (rawURL : string) : result nurl.URL :=
  let '(u, frag, _) := strings.CutByte rawURL "#" in
  match nurl.parse parseAuthority u false with
  | Err e => Err (url_Error "parse" u e)
  | Ok url =>
      if String.eqb frag "" then Ok url
      else match nurl.unescape_encodePath frag with
           | Err e => Err (url_Error "parse" rawURL e)
           | Ok _ => Ok url
           end
  end.

(** The stand-in environment with [nurl_Parse] for [url.Parse]. *)
Definition worldWithParse (resp : http.Response) : Env Harness.page :=
  mkEnv Harness.page Harness.hostOnly (nurl_Parse Harness.hostOnly) (Harness.serve resp)
        (fun r => Harness.inflateStored (length r) r) Harness.engine
        (Harness.mkPage [] nurl.emptyURL).

(** What a [gzip.Writer] with the default header has written once
    [data] was written to it and it was closed: the member header with
    no flag, no time and an unknown system, the DEFLATE stream of
    [data] (the compressor of [compress/flate] is left to the library),
    then the CRC-32 of [data] and its length modulo 2^32, both
    little-endian. *)
Definition gzip_Writer (deflate : list byte -> list byte) (data : list byte) : list byte :=
  (Harness.plainHeader ++ deflate data
     ++ Harness.le32 (crc32.ChecksumIEEE data)
     ++ Harness.le32 (Z.of_nat (length data) mod 4294967296))%list.

(** A compressor that stores: one final stored block holding [data]
    (fewer than 65536 bytes). *)
Definition storedBlock (data : list byte) : list byte :=
  (Harness.ofZ 1 :: Harness.le16 (Z.of_nat (length data))
     ++ Harness.le16 (65535 - Z.of_nat (length data)) ++ data)%list.

(** An authority parser that consults the scheme: a second colon in the
    authority is refused, except under [postgres]. *)
Definition colonsByScheme (scheme authority : string)
  : result (option nurl.Userinfo * string) :=
  if (2 <=? strings.CountByte authority ":")%nat && negb (String.eqb scheme "postgres")
  then Err (errors_New "invalid port after host")
  else Ok (None, authority).

Definition worldByScheme (resp : http.Response) : Env Harness.page :=
  mkEnv Harness.page colonsByScheme (nurl_Parse colonsByScheme) (Harness.serve resp)
        (fun r => Harness.inflateStored (length r) r) Harness.engine
        (Harness.mkPage [] nurl.emptyURL).

End surface.

(** * Properties of the pipeline *)

Import readability.

(** ** The library models on known values *)

Example crc32_check_value :
  crc32.ChecksumIEEE (Harness.bytes "123456789") = 3421780262%Z.
Proof. reflexivity. Qed.

Example parse_absolute_uri :
  nurl.ParseRequestURI Harness.hostOnly "HTTP://example.com/a%41?x=1"
  = Ok (nurl.mkURL "http" "" None "example.com" "/aA" false false "x=1").
Proof. reflexivity. Qed.

Example parse_opaque_uri :
  nurl.ParseRequestURI Harness.hostOnly "mailto:joe"
  = Ok (nurl.mkURL "mailto" "joe" None "" "" false false "").
Proof. reflexivity. Qed.

Example parse_star :
  nurl.ParseRequestURI Harness.hostOnly "*"
  = Ok (nurl.mkURL "" "" None "" "*" false false "").
Proof. reflexivity. Qed.

Example parse_no_scheme :
  nurl.ParseRequestURI Harness.hostOnly "example.com/a"
  = Err (url_Error "parse" "example.com/a" (errors_New "invalid URI for request")).
Proof. reflexivity. Qed.

Example parse_empty_scheme :
  nurl.ParseRequestURI Harness.hostOnly "://example.com"
  = Err (url_Error "parse" "://example.com" (errors_New "missing protocol scheme")).
Proof. reflexivity. Qed.

Example parse_bad_escape :
  nurl.ParseRequestURI Harness.hostOnly "http://example.com/a%zz"
  = Err (url_Error "parse" "http://example.com/a%zz" (url_EscapeError "%zz")).
Proof. reflexivity. Qed.

Example gzip_empty_body : gzip.NewReader [] = Err io.EOF.
Proof. reflexivity. Qed.

Example gzip_short_body :
  gzip.NewReader (Harness.bytes "hello") = Err io.ErrUnexpectedEOF.
Proof. reflexivity. Qed.

Example gzip_not_a_header :
  gzip.NewReader (Harness.bytes "hello world") = Err gzip.ErrHeader.
Proof. reflexivity. Qed.

(** ** Every path through [FromURL], executed symbolically *)
Section Paths.

Context {Article : Type} (E : Env Article).
Variables (pageURL : string) (timeout : Z).

Ltac run :=
  unfold FromURL, call, FromURL_body, http_NewRequest, Client_Do, gzip_NewReader,
    Parser_Parse, fail, emit, defer, mbind, mret, M_bind, M_ret.

Ltac enter H :=
  destruct H as (Hp & Hu & Hd); unfold request_for in Hd;
  run; rewrite Hp; simpl; rewrite Hu; simpl; rewrite Hd; simpl.

Lemma path_line43 e :
  nurl.ParseRequestURI (parseAuthority E) pageURL = Err e ->
  FromURL E pageURL timeout =
    (mkOutcome line43 (Article_zero E) (Some (fmt_Errorf "failed to parse URL: %v" [e])),
     []).
Proof. intros H. run. rewrite H. reflexivity. Qed.

Lemma path_line50 parsedURL e :
  nurl.ParseRequestURI (parseAuthority E) pageURL = Ok parsedURL ->
  url_Parse E pageURL = Err e ->
  FromURL E pageURL timeout =
    (mkOutcome line50 (Article_zero E)
       (Some (fmt_Errorf "failed to create request: %v" [e])),
     [NewRequest_call "GET" pageURL]).
Proof. intros Hp Hu. run. rewrite Hp. simpl. rewrite Hu. reflexivity. Qed.

Lemma path_line58 parsedURL u e :
  nurl.ParseRequestURI (parseAuthority E) pageURL = Ok parsedURL ->
  url_Parse E pageURL = Ok u ->
  client_Do E timeout (request_for u) = Err e ->
  FromURL E pageURL timeout =
    (mkOutcome line58 (Article_zero E)
       (Some (fmt_Errorf "failed to fetch the page: %v" [e])),
     [NewRequest_call "GET" pageURL; Do_call timeout (request_for u)]).
Proof.
  intros Hp Hu Hd. unfold request_for in Hd. run.
  rewrite Hp. simpl. rewrite Hu. simpl. rewrite Hd. reflexivity.
Qed.

Lemma path_line69 parsedURL u resp e :
  obtains E pageURL timeout parsedURL u resp ->
  declaresGzip resp = true ->
  gzip.NewReader (http.Body resp) = Err e ->
  FromURL E pageURL timeout =
    (mkOutcome line69 (Article_zero E)
       (Some (fmt_Errorf "failed to create gzip reader: %v" [e])),
     [NewRequest_call "GET" pageURL; Do_call timeout (request_for u);
      NewReader_call (http.Body resp); Close_call Body_Close]).
Proof.
  intros H Hg Hz. unfold declaresGzip in Hg. enter H.
  rewrite Hg. simpl. rewrite Hz. reflexivity.
Qed.

Lemma path_gzip_line80 parsedURL u resp z :
  obtains E pageURL timeout parsedURL u resp ->
  declaresGzip resp = true ->
  gzip.NewReader (http.Body resp) = Ok z ->
  declaresHTML resp = false ->
  FromURL E pageURL timeout =
    (mkOutcome line80 (Article_zero E)
       (Some (fmt_Errorf "URL is not a HTML document" [])),
     [NewRequest_call "GET" pageURL; Do_call timeout (request_for u);
      NewReader_call (http.Body resp);
      Close_call GzipReader_Close; Close_call Body_Close]).
Proof.
  intros H Hg Hz Hh. unfold declaresGzip in Hg. unfold declaresHTML in Hh. enter H.
  rewrite Hg. simpl. rewrite Hz. simpl. rewrite Hh. reflexivity.
Qed.

Lemma path_gzip_line85 parsedURL u resp z :
  obtains E pageURL timeout parsedURL u resp ->
  declaresGzip resp = true ->
  gzip.NewReader (http.Body resp) = Ok z ->
  declaresHTML resp = true ->
  FromURL E pageURL timeout =
    (mkOutcome line85
       (parser_Parse E (gzip.ReadAll (inflate E) z) parsedURL).1
       (parser_Parse E (gzip.ReadAll (inflate E) z) parsedURL).2,
     [NewRequest_call "GET" pageURL; Do_call timeout (request_for u);
      NewReader_call (http.Body resp);
      Parse_call (gzip.ReadAll (inflate E) z) parsedURL;
      Close_call GzipReader_Close; Close_call Body_Close]).
Proof.
  intros H Hg Hz Hh. unfold declaresGzip in Hg. unfold declaresHTML in Hh. enter H.
  rewrite Hg. simpl. rewrite Hz. simpl. rewrite Hh. reflexivity.
Qed.

Lemma path_plain_line80 parsedURL u resp :
  obtains E pageURL timeout parsedURL u resp ->
  declaresGzip resp = false ->
  declaresHTML resp = false ->
  FromURL E pageURL timeout =
    (mkOutcome line80 (Article_zero E)
       (Some (fmt_Errorf "URL is not a HTML document" [])),
     [NewRequest_call "GET" pageURL; Do_call timeout (request_for u);
      Close_call Body_Close]).
Proof.
  intros H Hg Hh. unfold declaresGzip in Hg. unfold declaresHTML in Hh. enter H.
  rewrite Hg. simpl. rewrite Hh. reflexivity.
Qed.

Lemma path_plain_line85 parsedURL u resp :
  obtains E pageURL timeout parsedURL u resp ->
  declaresGzip resp = false ->
  declaresHTML resp = true ->
  FromURL E pageURL timeout =
    (mkOutcome line85
       (parser_Parse E (http.Body resp, None) parsedURL).1
       (parser_Parse E (http.Body resp, None) parsedURL).2,
     [NewRequest_call "GET" pageURL; Do_call timeout (request_for u);
      Parse_call (http.Body resp, None) parsedURL;
      Close_call Body_Close]).
Proof.
  intros H Hg Hh. unfold declaresGzip in Hg. unfold declaresHTML in Hh. enter H.
  rewrite Hg. simpl. rewrite Hh. reflexivity.
Qed.

(** A call either stops before line 60 or obtains a response. *)
Lemma reaches :
  (exists e, nurl.ParseRequestURI (parseAuthority E) pageURL = Err e) \/
  (exists parsedURL,
     nurl.ParseRequestURI (parseAuthority E) pageURL = Ok parsedURL /\
     ((exists e, url_Parse E pageURL = Err e) \/
      (exists u, url_Parse E pageURL = Ok u /\
         ((exists e, client_Do E timeout (request_for u) = Err e) \/
          (exists resp, obtains E pageURL timeout parsedURL u resp))))).
Proof.
  unfold obtains.
  destruct (nurl.ParseRequestURI (parseAuthority E) pageURL) as [p|e] eqn:Hp;
    [right; exists p; split; [reflexivity|] | left; eauto].
  destruct (url_Parse E pageURL) as [u|e] eqn:Hu; [right; exists u; split; [reflexivity|] | left; eauto].
  destruct (client_Do E timeout (request_for u)) as [resp|e] eqn:Hd; [right | left; eauto].
  exists resp. auto.
Qed.

End Paths.

(** ** The gzip reader: headers consume input, so reading ends *)
Section GzipReader.

Variable inflate : list byte -> list byte * result nat.

Lemma ReadFull_length n r buf r' :
  io.ReadFull n r = Ok (buf, r') -> (length r' + n = length r)%nat.
Proof.
  unfold io.ReadFull.
  destruct (n =? 0)%nat eqn:Hn.
  - apply Nat.eqb_eq in Hn. intros H. inversion H. subst. lia.
  - destruct (length r =? 0)%nat; [discriminate|].
    destruct (length r <? n)%nat eqn:Hl; [discriminate|].
    apply Nat.ltb_ge in Hl. intros H. inversion H. subst.
    rewrite length_skipn. lia.
Qed.

Lemma readString_length r : forall i s rest,
  gzip.readString i r = Ok (s, rest) -> (length rest < length r)%nat.
Proof.
  induction r as [|b r IH]; intros i s rest; cbn [gzip.readString].
  - destruct (512 <=? i)%nat; discriminate.
  - destruct (512 <=? i)%nat; [discriminate|].
    destruct (byteZ b =? 0)%Z.
    + intros H. inversion H. subst. simpl. lia.
    + destruct (gzip.readString (S i) r) as [[s' rest']|e] eqn:Hr; [|discriminate].
      intros H. inversion H. subst. apply IH in Hr. simpl. lia.
Qed.

Lemma readExtra_length flg d r d' r' :
  gzip.readExtra flg (d, r) = Ok (d', r') -> (length r' <= length r)%nat.
Proof.
  unfold gzip.readExtra. destruct (gzip.hasFlag flg gzip.flagExtra).
  - destruct (io.ReadFull 2 r) as [[len r1]|e] eqn:H1; [|discriminate].
    destruct (io.ReadFull _ r1) as [[data r2]|e] eqn:H2; [|discriminate].
    intros H. inversion H. subst.
    apply ReadFull_length in H1, H2. lia.
  - intros H. inversion H. lia.
Qed.

Lemma readField_length flg mask d r d' r' :
  gzip.readField flg mask (d, r) = Ok (d', r') -> (length r' <= length r)%nat.
Proof.
  unfold gzip.readField. destruct (gzip.hasFlag flg mask).
  - destruct (gzip.readString 0 r) as [[s r1]|e] eqn:H1; [|discriminate].
    intros H. inversion H. subst. apply readString_length in H1. lia.
  - intros H. inversion H. lia.
Qed.

Lemma readHdrCrc_length flg d r r' :
  gzip.readHdrCrc flg (d, r) = Ok r' -> (length r' <= length r)%nat.
Proof.
  unfold gzip.readHdrCrc. destruct (gzip.hasFlag flg gzip.flagHdrCrc).
  - destruct (io.ReadFull 2 r) as [[buf r1]|e] eqn:H1; [|discriminate].
    destruct (_ =? _)%Z; [|discriminate].
    intros H. inversion H. subst. apply ReadFull_length in H1. lia.
  - intros H. inversion H. lia.
Qed.

(** A member header takes at least its ten fixed bytes. *)
Lemma readHeader_length r r' :
  gzip.readHeader r = Ok r' -> (length r' + 10 <= length r)%nat.
Proof.
  unfold gzip.readHeader.
  destruct (io.ReadFull 10 r) as [[buf r0]|e] eqn:H0; [|discriminate].
  destruct (negb _); [discriminate|].
  destruct (gzip.readExtra _ _) as [[d1 r1]|e] eqn:H1; [|discriminate].
  destruct (gzip.readField _ gzip.flagName _) as [[d2 r2]|e] eqn:H2; [|discriminate].
  destruct (gzip.readField _ gzip.flagComment _) as [[d3 r3]|e] eqn:H3; [|discriminate].
  intros H4.
  apply ReadFull_length in H0. apply readExtra_length in H1.
  apply readField_length in H2, H3. apply readHdrCrc_length in H4. lia.
Qed.

(** Any fuel above the length of the input gives the same stream: the
    bound in [ReadAll] never cuts a stream short. *)
Lemma readMembers_fuel : forall fuel1 fuel2 r,
  (length r < fuel1)%nat -> (length r < fuel2)%nat ->
  gzip.readMembers inflate fuel1 r = gzip.readMembers inflate fuel2 r.
Proof.
  induction fuel1 as [|fuel1 IH]; intros fuel2 r H1 H2; [lia|].
  destruct fuel2 as [|fuel2]; [lia|]. cbn [gzip.readMembers].
  destruct (inflate r) as [out [n|e]]; [|reflexivity].
  destruct (io.ReadFull 8 (skipn n r)) as [[buf r']|e] eqn:Ht; [|reflexivity].
  destruct (negb _); [reflexivity|].
  destruct (gzip.readHeader r') as [r''|e] eqn:Hh; [|reflexivity].
  apply ReadFull_length in Ht. apply readHeader_length in Hh.
  rewrite length_skipn in Ht.
  rewrite (IH fuel2 r'') by lia. reflexivity.
Qed.

Lemma ReadAll_fuel z fuel :
  (length (gzip.src z) < fuel)%nat ->
  gzip.readMembers inflate fuel (gzip.src z) = gzip.ReadAll inflate z.
Proof. intros H. unfold gzip.ReadAll. apply readMembers_fuel; lia. Qed.

End GzipReader.

(** ** The stored members of the stand-in environment are gzip files *)
Section StoredMembers.

Import Harness.
Local Open Scope Z_scope.

Lemma byteZ_ofZ z : byteZ (ofZ z) = (z mod 256)%Z.
Proof.
  unfold byteZ, ofZ.
  assert (Hr : (0 <= z mod 256 < 256)%Z) by (apply Z.mod_pos_bound; lia).
  destruct (Strings.Byte.of_N (Z.to_N (z mod 256))) as [b|] eqn:Hb.
  - apply Strings.Byte.to_of_N in Hb. rewrite Hb. lia.
  - apply Strings.Byte.of_N_None_iff in Hb. lia.
Qed.

Lemma le_Uint16_le16 z :
  (0 <= z < 65536)%Z -> gzip.le_Uint16 (le16 z) = z.
Proof.
  intros Hz. unfold gzip.le_Uint16, gzip.at_, le16. cbn [nth].
  rewrite !byteZ_ofZ.
  rewrite (Z.mod_small (z / 256) 256) by (split; [apply Z.div_pos; lia | apply Z.div_lt_upper_bound; lia]).
  pose proof (Z.div_mod z 256). lia.
Qed.

Lemma le_Uint32_le32 z :
  (0 <= z < 4294967296)%Z -> gzip.le_Uint32 (le32 z) = z.
Proof.
  intros Hz. unfold gzip.le_Uint32, gzip.at_, le32. cbn [nth].
  rewrite !byteZ_ofZ.
  pose proof (Z.div_mod z 256 ltac:(lia)) as H0.
  pose proof (Z.div_mod (z / 256) 256 ltac:(lia)) as H1.
  pose proof (Z.div_mod (z / 256 / 256) 256 ltac:(lia)) as H2.
  replace (z / 65536)%Z with (z / 256 / 256)%Z by (rewrite Z.div_div by lia; reflexivity).
  replace (z / 16777216)%Z with (z / 256 / 256 / 256)%Z
    by (rewrite !Z.div_div by lia; reflexivity).
  assert (H3 : (0 <= z / 256 / 256 / 256 < 256)%Z).
  { split; [repeat apply Z.div_pos; lia|]. repeat (apply Z.div_lt_upper_bound; [lia|]). lia. }
  rewrite (Z.mod_small (z / 256 / 256 / 256) 256) by exact H3.
  lia.
Qed.

Lemma word32_lxor x y : crc32.word32 x -> crc32.word32 y -> crc32.word32 (Z.lxor x y).
Proof.
  unfold crc32.word32. intros Hx Hy. split; [apply Z.lxor_nonneg; lia|].
  destruct (Z.eq_dec (Z.lxor x y) 0) as [->|Hne]; [lia|].
  assert (Hp : (0 < Z.lxor x y)%Z) by (pose proof (proj2 (Z.lxor_nonneg x y)); lia).
  apply Z.log2_lt_pow2 with (b := 32%Z); [exact Hp|].
  pose proof (Z.log2_lxor x y ltac:(lia) ltac:(lia)) as Hl.
  assert (Hlx : (Z.log2 x < 32)%Z).
  { destruct (Z.eq_dec x 0) as [->|]; [simpl; lia|]. apply Z.log2_lt_pow2; lia. }
  assert (Hly : (Z.log2 y < 32)%Z).
  { destruct (Z.eq_dec y 0) as [->|]; [simpl; lia|]. apply Z.log2_lt_pow2; lia. }
  lia.
Qed.

Lemma word32_step x : crc32.word32 x -> crc32.word32 (crc32.step x).
Proof.
  intros Hx. unfold crc32.step.
  assert (Hs : crc32.word32 (Z.shiftr x 1)).
  { unfold crc32.word32 in *. rewrite Z.shiftr_div_pow2 by lia. change (2 ^ 1)%Z with 2%Z.
    split; [apply Z.div_pos; lia | apply Z.div_lt_upper_bound; lia]. }
  destruct (Z.testbit x 0); [|exact Hs].
  apply word32_lxor; [exact Hs | unfold crc32.word32; lia].
Qed.

Lemma word32_updateByte x b : crc32.word32 x -> crc32.word32 (crc32.updateByte x b).
Proof.
  intros Hx. unfold crc32.updateByte.
  assert (Hb : crc32.word32 (Z.lxor x (byteZ b))).
  { apply word32_lxor; [exact Hx|]. unfold crc32.word32, byteZ.
    pose proof (Strings.Byte.to_N_bounded b). lia. }
  simpl. repeat apply word32_step. exact Hb.
Qed.

Lemma word32_Checksum p : crc32.word32 (crc32.ChecksumIEEE p).
Proof.
  unfold crc32.ChecksumIEEE, crc32.Update.
  apply word32_lxor; [|unfold crc32.word32; lia].
  assert (H : forall x, crc32.word32 x -> crc32.word32 (fold_left crc32.updateByte p x)).
  { induction p as [|b p IH]; intros x Hx; simpl; [exact Hx|].
    apply IH, word32_updateByte, Hx. }
  apply H. apply word32_lxor; unfold crc32.word32; lia.
Qed.

Lemma inflateStored_one fuel data tail :
  Z.of_nat (length data) < 65536 ->
  inflateStored (S fuel)
    (ofZ 1 :: le16 (Z.of_nat (length data)) ++ le16 (65535 - Z.of_nat (length data))
       ++ data ++ tail)%list
  = (data, Ok (5 + length data)%nat).
Proof.
  intros Hl.
  assert (H1 : gzip.le_Uint16 (le16 (Z.of_nat (length data))) = Z.of_nat (length data))
    by (apply le_Uint16_le16; lia).
  assert (H2 : gzip.le_Uint16 (le16 (65535 - Z.of_nat (length data)))
               = 65535 - Z.of_nat (length data))
    by (apply le_Uint16_le16; lia).
  unfold le16 in *. cbn [inflateStored app].
  change (byteZ (ofZ 1)) with 1. cbn [Z.land Pos.land Z.eqb negb Z.testbit Pos.testbit].
  rewrite H1, H2, Z.eqb_refl, Nat2Z.id. cbn [negb].
  rewrite length_app.
  replace (length data + length tail <? length data)%nat with false
    by (symmetry; apply Nat.ltb_ge; lia).
  rewrite firstn_app, Nat.sub_diag, firstn_all. cbn [firstn]. rewrite app_nil_r.
  rewrite ?Z.eqb_refl. reflexivity.
Qed.

Lemma NewReader_plainHeader rest :
  gzip.NewReader (plainHeader ++ rest)%list = Ok (gzip.mkReader rest).
Proof. reflexivity. Qed.

Lemma drop_block data tail a b :
  skipn (5 + length data) (ofZ 1 :: le16 a ++ le16 b ++ data ++ tail)%list = tail.
Proof.
  unfold le16. cbn [app skipn plus].
  rewrite skipn_app, skipn_all, Nat.sub_diag. reflexivity.
Qed.

Lemma readMembers_one inflate fuel r out n trailer :
  inflate r = (out, Ok n) ->
  skipn n r = trailer ->
  trailer = (le32 (crc32.ChecksumIEEE out) ++ le32 (Z.of_nat (length out)))%list ->
  Z.of_nat (length out) < 4294967296 ->
  gzip.readMembers inflate (S fuel) r = (out, None).
Proof.
  intros Hi Hs Ht Hl. cbn [gzip.readMembers]. rewrite Hi, Hs, Ht.
  pose proof (word32_Checksum out) as Hc. unfold crc32.word32 in Hc.
  assert (H1 : gzip.le_Uint32 (le32 (crc32.ChecksumIEEE out)) = crc32.ChecksumIEEE out)
    by (apply le_Uint32_le32; exact Hc).
  assert (H2 : gzip.le_Uint32 (le32 (Z.of_nat (length out))) = Z.of_nat (length out))
    by (apply le_Uint32_le32; lia).
  unfold le32 in *. cbn [io.ReadFull app length Nat.eqb Nat.ltb Nat.leb firstn skipn].
  rewrite H1, H2, Z.eqb_refl, Z.mod_small by lia. rewrite Z.eqb_refl.
  reflexivity.
Qed.

(** Whatever [data] of fewer than 65536 bytes is stored, the reader
    opens on the member and yields [data] up to a clean end of file. *)
Lemma stored_decodes data :
  Z.of_nat (length data) < 65536 ->
  gzip.decodes (fun r => inflateStored (length r) r) (stored data) data.
Proof.
  intros Hl. unfold gzip.decodes, stored.
  eexists. split; [apply NewReader_plainHeader|].
  unfold gzip.ReadAll. cbn [gzip.src].
  eapply readMembers_one; [ | | reflexivity | lia].
  - cbn [app length]. apply inflateStored_one. exact Hl.
  - apply drop_block.
Qed.

End StoredMembers.

(** ** The claims *)

Import Harness.
Import surface.

Ltac by_path H resp :=
  let Hg := fresh "Hg" in
  let Hz := fresh "Hz" in
  let Hh := fresh "Hh" in
  destruct (declaresGzip resp) eqn:Hg;
  [ destruct (gzip.NewReader (http.Body resp)) as [?z|?e] eqn:Hz;
    [ destruct (declaresHTML resp) eqn:Hh;
      [ rewrite (path_gzip_line85 _ _ _ _ _ _ _ H Hg Hz Hh)
      | rewrite (path_gzip_line80 _ _ _ _ _ _ _ H Hg Hz Hh) ]
    | rewrite (path_line69 _ _ _ _ _ _ _ H Hg Hz) ]
  | destruct (declaresHTML resp) eqn:Hh;
    [ rewrite (path_plain_line85 _ _ _ _ _ _ H Hg Hh)
    | rewrite (path_plain_line80 _ _ _ _ _ _ H Hg Hh) ] ].

Lemma obtains_address resp :
  obtains (world resp) address 5 exampleURL exampleURL resp.
Proof. repeat split. Qed.

(** C1: when the URL validator rejects the input, [FromURL] returns
    the [InvalidURL] error made from the validator's error and has made
    no call at all: no request was built, no client was used, nothing
    was opened or closed. *)
Theorem invalid_url_makes_no_call {Article} (E : Env Article) pageURL timeout e :
  nurl.ParseRequestURI (parseAuthority E) pageURL = Err e ->
  (FromURL E pageURL timeout).2 = [] /\
  classify (FromURL E pageURL timeout).1 = Some InvalidURL /\
  err (FromURL E pageURL timeout).1 = Some (fmt_Errorf "failed to parse URL: %v" [e]).
Proof.
  intros H. rewrite (path_line43 E pageURL timeout e H). repeat split.
Qed.

Lemma invalid_url_makes_no_call_witness :
  (FromURL (world htmlGzip) "example.com/a" 5).2 = [] /\
  classify (FromURL (world htmlGzip) "example.com/a" 5).1 = Some InvalidURL /\
  err (FromURL (world htmlGzip) "example.com/a" 5).1 =
    Some (fmt_Errorf "failed to parse URL: %v"
            [url_Error "parse" "example.com/a" (errors_New "invalid URI for request")]).
Proof.
  apply (invalid_url_makes_no_call (world htmlGzip) "example.com/a" 5). reflexivity.
Defined.

(** *** The URL validator *)

Section Validator.

Variable pa : string -> string -> result (option nurl.Userinfo * string).

Lemma HasPrefix_slash s :
  strings.HasPrefix s "/" = true <-> exists t, s = String "/" t.
Proof.
  destruct s as [|a t]; cbn [strings.HasPrefix].
  - split; [discriminate | intros [t Ht]; discriminate].
  - destruct (Ascii.eqb_spec a "/") as [->|Hne]; cbn [andb].
    + split; [intros _; exists t; reflexivity | intros _; reflexivity].
    + split; [discriminate | intros [t' Ht']; congruence].
Qed.

Lemma dropLast_slash s :
  strings.HasPrefix (strings.dropLast s) "/" = true -> strings.HasPrefix s "/" = true.
Proof.
  rewrite !HasPrefix_slash. intros [t Ht]. destruct s as [|a [|b s']]; simpl in Ht.
  - discriminate.
  - discriminate.
  - inversion Ht. eauto.
Qed.

Lemma CutByte_slash s c :
  strings.HasPrefix (strings.CutByte s c).1.1 "/" = true -> strings.HasPrefix s "/" = true.
Proof.
  rewrite !HasPrefix_slash. intros [t Ht]. destruct s as [|a s']; simpl in Ht.
  - discriminate.
  - destruct (Ascii.eqb a c); simpl in Ht; [discriminate|].
    destruct (strings.CutByte s' c) as [[b af] f]. simpl in Ht. inversion Ht. eauto.
Qed.

Lemma getScheme_from_none s : forall i raw rest,
  (i = 0%nat -> s = raw) -> (i <> 0%nat -> raw <> EmptyString) ->
  nurl.getScheme_from i s raw = Ok (EmptyString, rest) -> rest = raw.
Proof.
  induction s as [|c s IH]; intros i raw rest H0 Hn; simpl.
  - intros H. inversion H. reflexivity.
  - assert (Hrec : forall rest, nurl.getScheme_from (S i) s raw = Ok (EmptyString, rest) -> rest = raw).
    { intros r. apply IH; [discriminate|]. intros _.
      destruct i; [rewrite <- H0 by reflexivity; discriminate | apply Hn; discriminate]. }
    destruct (nurl.isLetter c); [apply Hrec|].
    destruct (_ || _).
    { destruct (i =? 0)%nat; [intros H; inversion H; reflexivity | apply Hrec]. }
    destruct (Ascii.eqb c ":").
    { destruct (i =? 0)%nat eqn:Hi; [discriminate|].
      apply Nat.eqb_neq in Hi. specialize (Hn Hi).
      destruct i; [congruence|]. destruct raw; [congruence|]. simpl. discriminate. }
    intros H. inversion H. reflexivity.
Qed.

Lemma getScheme_none raw rest :
  nurl.getScheme raw = Ok (EmptyString, rest) -> rest = raw.
Proof. apply getScheme_from_none; congruence. Qed.

Lemma ToLower_empty s : strings.ToLower s = EmptyString -> s = EmptyString.
Proof. destruct s; [reflexivity | discriminate]. Qed.

Lemma parse_accepts raw u :
  nurl.parse pa raw true = Ok u ->
  String.eqb raw "*" || nurl.hasScheme raw || strings.HasPrefix raw "/" = true.
Proof.
  unfold nurl.parse, nurl.hasScheme.
  destruct (nurl.stringContainsCTLByte raw); [discriminate|].
  destruct (String.eqb raw "" && true); [discriminate|].
  destruct (String.eqb raw "*"); [reflexivity|].
  destruct (nurl.getScheme raw) as [[sch rest]|e] eqn:Hs; [|discriminate].
  destruct sch as [|a sch]; [|reflexivity].
  apply getScheme_none in Hs. subst rest. intros H.
  destruct (strings.HasPrefix raw "/") eqn:Hp; [reflexivity|exfalso].
  cbn [strings.ToLower String.eqb negb] in H.
  destruct (strings.HasSuffixByte raw "?" && (strings.CountByte raw "?" =? 1)%nat).
  - destruct (strings.HasPrefix (strings.dropLast raw) "/") eqn:Hd;
      cbn [negb] in H; [|discriminate].
    apply dropLast_slash in Hd. congruence.
  - destruct (strings.CutByte raw "?") as [[b af] f] eqn:Hc.
    destruct (strings.HasPrefix b "/") eqn:Hd; cbn [negb] in H; [|discriminate].
    assert (Hb : b = (strings.CutByte raw "?").1.1) by (rewrite Hc; reflexivity).
    rewrite Hb in Hd. apply CutByte_slash in Hd. congruence.
Qed.

End Validator.

(** C2, as stated, fails on an absolute path: it has neither a scheme
    nor an authority, and the validator accepts it: the call goes on to build and send a request,
    and ends with the transport's error. *)
Lemma absolute_path_passes_the_validator :
  nurl.ParseRequestURI (parseAuthority (world htmlGzip)) "/index.html"
    = Ok (nurl.mkURL "" "" None "" "/index.html" false false "") /\
  nurl.hasScheme "/index.html" = false /\
  left_at (FromURL (world htmlGzip) "/index.html" 5).1 = line58 /\
  classify (FromURL (world htmlGzip) "/index.html" 5).1 = Some FetchError.
Proof. repeat split. Qed.

(** C2 (amended): the validator is [ParseRequestURI]. The call ends
    with [InvalidURL] exactly when it rejects the string; and it accepts
    a string only if the string is [*], or starts with a scheme, or
    starts with [/] (an absolute path, which names no scheme and no
    authority). Every other string is therefore refused with
    [InvalidURL]. *)
Theorem url_validator {Article} (E : Env Article) pageURL timeout :
  (classify (FromURL E pageURL timeout).1 = Some InvalidURL <->
   is_Ok (nurl.ParseRequestURI (parseAuthority E) pageURL) = false) /\
  (is_Ok (nurl.ParseRequestURI (parseAuthority E) pageURL) = true ->
   String.eqb pageURL "*" || nurl.hasScheme pageURL || strings.HasPrefix pageURL "/"
     = true).
Proof.
  split.
  - destruct (reaches E pageURL timeout)
      as [[e He] | (p & Hp & [[e He] | (u & Hu & [[e He] | [resp H]])])].
    + rewrite (path_line43 _ _ _ _ He), He. split; reflexivity.
    + rewrite (path_line50 _ _ _ _ _ Hp He), Hp. split; discriminate.
    + rewrite (path_line58 _ _ _ _ _ _ Hp Hu He), Hp. split; discriminate.
    + rewrite Hp. by_path H resp; simpl; split; try discriminate.
      * destruct (parser_Parse E (gzip.ReadAll (inflate E) z) p).2; discriminate.
      * destruct (parser_Parse E (http.Body resp, None) p).2; discriminate.
  - unfold nurl.ParseRequestURI.
    destruct (nurl.parse (parseAuthority E) pageURL true) as [u|e] eqn:Hu; [|discriminate].
    intros _. exact (parse_accepts _ _ _ Hu).
Qed.

Lemma url_validator_witness :
  classify (FromURL (world htmlGzip) "example.com/a" 5).1 = Some InvalidURL /\
  String.eqb address "*" || nurl.hasScheme address || strings.HasPrefix address "/" = true.
Proof.
  split.
  - apply (proj1 (url_validator (world htmlGzip) "example.com/a" 5)). reflexivity.
  - apply (proj2 (url_validator (world htmlGzip) address 5)). reflexivity.
Defined.

(** *** The media-type gate and the encoding switch *)

(** C3, as stated, fails on a response of type [text/plain] that
    declares gzip and carries plain text: it is refused by the encoding switch, with a decode error,
    before its content type is looked at. *)
Lemma plain_text_declared_gzip_is_a_decode_error :
  http.Header_Get (http.RespHeader plainNotGzip) "Content-Type" = "text/plain" /\
  declaresHTML plainNotGzip = false /\
  declaresGzip plainNotGzip = true /\
  gzip.NewReader (http.Body plainNotGzip) = Err gzip.ErrHeader /\
  classify (FromURL (world plainNotGzip) address 5).1 = Some DecodeError.
Proof. repeat split. Qed.

(** C3 (amended): a response whose content type does not contain
    [text/html] is refused as [UnsupportedContentType], whatever its
    body holds and without the engine being called, provided the
    encoding switch lets it through: it does not declare gzip, or its
    body opens as gzip. *)
Theorem non_html_is_refused_once_past_the_switch {Article} (E : Env Article)
    pageURL timeout parsedURL u resp :
  obtains E pageURL timeout parsedURL u resp ->
  declaresHTML resp = false ->
  declaresGzip resp = false \/ is_Ok (gzip.NewReader (http.Body resp)) = true ->
  classify (FromURL E pageURL timeout).1 = Some UnsupportedContentType /\
  err (FromURL E pageURL timeout).1 = Some (fmt_Errorf "URL is not a HTML document" []) /\
  parse_calls (FromURL E pageURL timeout).2 = [].
Proof.
  intros H Hh Hn.
  destruct (declaresGzip resp) eqn:Hg.
  - destruct Hn as [Hn|Hn]; [discriminate|].
    destruct (gzip.NewReader (http.Body resp)) as [z|e] eqn:Hz; [|discriminate].
    rewrite (path_gzip_line80 _ _ _ _ _ _ _ H Hg Hz Hh). repeat split.
  - rewrite (path_plain_line80 _ _ _ _ _ _ H Hg Hh). repeat split.
Qed.

Lemma non_html_is_refused_witness :
  classify (FromURL (world plainBrokenStream) address 5).1 = Some UnsupportedContentType /\
  err (FromURL (world plainBrokenStream) address 5).1
    = Some (fmt_Errorf "URL is not a HTML document" []) /\
  parse_calls (FromURL (world plainBrokenStream) address 5).2 = [].
Proof.
  apply (non_html_is_refused_once_past_the_switch (world plainBrokenStream)
           address 5 exampleURL exampleURL plainBrokenStream).
  - apply obtains_address.
  - reflexivity.
  - right. reflexivity.
Defined.

(** Whatever the reader made by the switch yields is what the engine
    is given: the stream of the gzip reader when the response declares
    gzip, the body as it came otherwise. *)
Lemma engine_reads_the_decoded_bytes {Article} (E : Env Article)
    pageURL timeout parsedURL u resp :
  obtains E pageURL timeout parsedURL u resp ->
  declaresHTML resp = true ->
  (declaresGzip resp = true ->
   forall B, gzip.decodes (inflate E) (http.Body resp) B ->
   parse_calls (FromURL E pageURL timeout).2 = [((B, None), parsedURL)]) /\
  (declaresGzip resp = false ->
   parse_calls (FromURL E pageURL timeout).2 = [((http.Body resp, None), parsedURL)]).
Proof.
  intros H Hh. split; intros Hg.
  - intros B (z & Hz & Hr).
    rewrite (path_gzip_line85 _ _ _ _ _ _ _ H Hg Hz Hh). simpl. rewrite Hr. reflexivity.
  - rewrite (path_plain_line85 _ _ _ _ _ _ H Hg Hh). reflexivity.
Qed.

Lemma stored_page_decodes :
  gzip.decodes (inflate (world htmlGzip)) (http.Body htmlGzip) (bytes "<p>hi</p>").
Proof. eexists. split; reflexivity. Qed.

(** Compress, then read: the reader opens on what the writer wrote for
    [data] and yields [data] up to a clean end of file, as soon as the
    decompressor undoes the compressor on [data] and stops where the
    compressed stream stops. The header is parsed, the CRC-32 and the
    length in the trailer are checked against what was decompressed,
    and the end of input after the trailer ends the stream. *)
Lemma written_member_decodes (inflate : list byte -> list byte * result nat)
    (deflate : list byte -> list byte) data :
  (forall tail, inflate (deflate data ++ tail)%list = (data, Ok (length (deflate data)))) ->
  gzip.decodes inflate (gzip_Writer deflate data) data.
Proof.
  intros Hrt. unfold gzip.decodes, gzip_Writer.
  eexists. split; [apply NewReader_plainHeader|].
  unfold gzip.ReadAll. cbn [gzip.src gzip.readMembers].
  rewrite Hrt. rewrite skipn_app, skipn_all, Nat.sub_diag. cbn [skipn app].
  pose proof (word32_Checksum data) as Hc. unfold crc32.word32 in Hc.
  assert (Hm : (0 <= Z.of_nat (length data) mod 4294967296 < 4294967296)%Z)
    by (apply Z.mod_pos_bound; lia).
  assert (H1 : gzip.le_Uint32 (le32 (crc32.ChecksumIEEE data)) = crc32.ChecksumIEEE data)
    by (apply le_Uint32_le32; exact Hc).
  assert (H2 : gzip.le_Uint32 (le32 (Z.of_nat (length data) mod 4294967296))
               = (Z.of_nat (length data) mod 4294967296)%Z)
    by (apply le_Uint32_le32; exact Hm).
  unfold le32 in *. cbn [io.ReadFull app length Nat.eqb Nat.ltb Nat.leb firstn skipn].
  rewrite H1, H2, !Z.eqb_refl. reflexivity.
Qed.

Lemma storedBlock_inflates data tail :
  (Z.of_nat (length data) < 65536)%Z ->
  Harness.inflateStored (length (storedBlock data ++ tail)%list) (storedBlock data ++ tail)%list
  = (data, Ok (length (storedBlock data))).
Proof.
  intros Hl. unfold storedBlock.
  assert (Hlen : length (ofZ 1 :: le16 (Z.of_nat (length data))
                          ++ le16 (65535 - Z.of_nat (length data)) ++ data)%list
                 = (5 + length data)%nat).
  { unfold le16. simpl. reflexivity. }
  rewrite Hlen.
  change ((ofZ 1 :: le16 (Z.of_nat (length data))
             ++ le16 (65535 - Z.of_nat (length data)) ++ data) ++ tail)%list
    with (ofZ 1 :: le16 (Z.of_nat (length data))
             ++ le16 (65535 - Z.of_nat (length data)) ++ data ++ tail)%list.
  cbn [length]. apply inflateStored_one. exact Hl.
Qed.

(** C4: compress, serve, fetch. When the response declares gzip and its
    body is what a gzip writer wrote for the bytes [B] (with a
    decompressor that undoes the compressor on [B]), the one stream
    handed to [Parse] yields exactly [B] and ends cleanly; more
    generally the same holds for every body the gzip reader decodes to
    [B]; and when the response does not declare gzip, that stream
    yields the body as it came. *)
Theorem engine_reads_what_was_compressed {Article} (E : Env Article)
    pageURL timeout parsedURL u resp :
  obtains E pageURL timeout parsedURL u resp ->
  declaresHTML resp = true ->
  (declaresGzip resp = true ->
   forall deflate B,
     (forall tail,
        inflate E (deflate B ++ tail)%list = (B, Ok (length (deflate B)))) ->
     http.Body resp = gzip_Writer deflate B ->
     parse_calls (FromURL E pageURL timeout).2 = [((B, None), parsedURL)]) /\
  (declaresGzip resp = true ->
   forall B, gzip.decodes (inflate E) (http.Body resp) B ->
   parse_calls (FromURL E pageURL timeout).2 = [((B, None), parsedURL)]) /\
  (declaresGzip resp = false ->
   parse_calls (FromURL E pageURL timeout).2 = [((http.Body resp, None), parsedURL)]).
Proof.
  intros H Hh.
  pose proof (engine_reads_the_decoded_bytes E pageURL timeout parsedURL u resp H Hh)
    as [Hgz Hid].
  split; [|split; assumption].
  intros Hg deflate B Hrt Hbody. apply (Hgz Hg). rewrite Hbody.
  apply written_member_decodes. exact Hrt.
Qed.

Lemma engine_reads_what_was_compressed_witness :
  http.Body htmlGzip = gzip_Writer storedBlock (bytes "<p>hi</p>") /\
  parse_calls (FromURL (world htmlGzip) address 5).2
    = [((bytes "<p>hi</p>", None), exampleURL)] /\
  parse_calls (FromURL (world htmlIdentity) address 5).2
    = [((bytes "<p>gone</p>", None), exampleURL)].
Proof.
  split; [reflexivity|]. split.
  - apply (proj1 (engine_reads_what_was_compressed (world htmlGzip) address 5
                    exampleURL exampleURL htmlGzip (obtains_address _) eq_refl)
             eq_refl storedBlock (bytes "<p>hi</p>")).
    + intros tail. apply (storedBlock_inflates (bytes "<p>hi</p>") tail). reflexivity.
    + reflexivity.
  - apply (proj2 (proj2 (engine_reads_what_was_compressed (world htmlIdentity) address 5
                    exampleURL exampleURL htmlIdentity (obtains_address _) eq_refl))
             eq_refl).
Defined.

(** The same for every page of fewer than 65536 bytes in the stand-in
    environment: stored by the writer, served as gzip and HTML, it
    reaches the engine byte for byte. *)
Lemma stored_page_reaches_the_engine (B : list byte) :
  (Z.of_nat (length B) < 65536)%Z ->
  parse_calls
    (FromURL (world (respond 200 (Some "text/html") (Some "gzip")
                       (gzip_Writer storedBlock B) exampleURL)) address 5).2
  = [((B, None), exampleURL)].
Proof.
  intros Hl.
  set (resp := respond 200 (Some "text/html") (Some "gzip")
                 (gzip_Writer storedBlock B) exampleURL).
  apply (proj1 (engine_reads_the_decoded_bytes (world resp) address 5
                  exampleURL exampleURL resp (obtains_address _) eq_refl) eq_refl).
  apply (written_member_decodes (inflate (world resp)) storedBlock B).
  intros tail. apply storedBlock_inflates. exact Hl.
Qed.

(** C5: the encoding switch looks at the declared encoding only. When
    it is exactly [gzip] the body is given to [gzip.NewReader], and the
    reader so made is what the later stages see; for any other value,
    and when the header is absent, no reader is made, the call is not
    refused for its encoding, and the body itself is what the later
    stages see. *)
Theorem encoding_switch {Article} (E : Env Article)
    pageURL timeout parsedURL u resp :
  obtains E pageURL timeout parsedURL u resp ->
  (declaresGzip resp = true <->
   http.Header_Get (http.RespHeader resp) "Content-Encoding" = "gzip") /\
  (http.RespHeader resp !! "Content-Encoding" = None -> declaresGzip resp = false) /\
  (declaresGzip resp = true ->
   wraps (FromURL E pageURL timeout).2 = [http.Body resp] /\
   forall z, gzip.NewReader (http.Body resp) = Ok z ->
   parse_calls (FromURL E pageURL timeout).2 =
     if declaresHTML resp then [(gzip.ReadAll (inflate E) z, parsedURL)] else []) /\
  (declaresGzip resp = false ->
   wraps (FromURL E pageURL timeout).2 = [] /\
   classify (FromURL E pageURL timeout).1 <> Some DecodeError /\
   parse_calls (FromURL E pageURL timeout).2 =
     if declaresHTML resp then [((http.Body resp, None), parsedURL)] else []).
Proof.
  intros H. split; [|split; [|split]].
  - unfold declaresGzip. apply String.eqb_eq.
  - intros Hn. unfold declaresGzip, http.Header_Get. rewrite Hn. reflexivity.
  - intros Hg'. by_path H resp; try discriminate.
    + split; [reflexivity|]. intros z' Hz'. inversion Hz'. subst. reflexivity.
    + split; [reflexivity|]. intros z' Hz'. reflexivity.
    + split; [reflexivity|]. intros z' Hz'. discriminate.
  - intros Hg'. by_path H resp; try discriminate.
    + repeat split. simpl.
      destruct (parser_Parse E (http.Body resp, None) parsedURL).2; discriminate.
    + repeat split. discriminate.
Qed.

Lemma encoding_switch_witness :
  wraps (FromURL (world htmlGzip) address 5).2 = [stored (bytes "<p>hi</p>")] /\
  wraps (FromURL (world htmlDeflate) address 5).2 = [] /\
  parse_calls (FromURL (world htmlDeflate) address 5).2
    = [((bytes "<p>hi</p>", None), exampleURL)].
Proof.
  split; [|split].
  - apply (proj1 (proj1 (proj2 (proj2 (encoding_switch (world htmlGzip) address 5
             exampleURL exampleURL htmlGzip (obtains_address _)))) eq_refl)).
  - apply (proj1 (proj2 (proj2 (proj2 (encoding_switch (world htmlDeflate) address 5
             exampleURL exampleURL htmlDeflate (obtains_address _)))) eq_refl)).
  - apply (proj2 (proj2 (proj2 (proj2 (proj2 (encoding_switch (world htmlDeflate) address 5
             exampleURL exampleURL htmlDeflate (obtains_address _)))) eq_refl))).
Defined.

(** C6, as stated, fails on a body that opens as gzip and then fails
    on its first read: it is not a gzip file, yet the call does not end
    in a decode error: with a
    type other than HTML it ends at the gate, the stream never read;
    with an HTML type the stream goes to the engine, and what the call
    returns is what the engine returns. *)
Lemma broken_gzip_stream_is_not_a_decode_error :
  declaresGzip plainBrokenStream = true /\
  gzip.corrupt (inflate (world plainBrokenStream)) (http.Body plainBrokenStream) /\
  classify (FromURL (world plainBrokenStream) address 5).1 = Some UnsupportedContentType /\
  declaresGzip htmlBrokenStream = true /\
  gzip.corrupt (inflate (world htmlBrokenStream)) (http.Body htmlBrokenStream) /\
  left_at (FromURL (world htmlBrokenStream) address 5).1 = line85 /\
  classify (FromURL (world htmlBrokenStream) address 5).1 = Some ParseError.
Proof. repeat split; discriminate. Qed.

(** C6 (amended): for a response that declares gzip, the call ends in
    the decode error exactly when [gzip.NewReader] does not open on the
    body (no well-formed member header at its start), which happens at
    wrap time: the error returned is made from the reader's, and the
    engine is not called. *)
Theorem gzip_that_does_not_open_is_a_decode_error {Article} (E : Env Article)
    pageURL timeout parsedURL u resp :
  obtains E pageURL timeout parsedURL u resp ->
  declaresGzip resp = true ->
  (classify (FromURL E pageURL timeout).1 = Some DecodeError <->
   is_Ok (gzip.NewReader (http.Body resp)) = false) /\
  (forall e, gzip.NewReader (http.Body resp) = Err e ->
   err (FromURL E pageURL timeout).1
     = Some (fmt_Errorf "failed to create gzip reader: %v" [e]) /\
   parse_calls (FromURL E pageURL timeout).2 = [] /\
   wraps (FromURL E pageURL timeout).2 = [http.Body resp]).
Proof.
  intros H Hg'. by_path H resp; try discriminate; simpl.
  - split; [|intros e' He'; discriminate].
    destruct (parser_Parse E (gzip.ReadAll (inflate E) z) parsedURL).2;
      split; discriminate.
  - split; [split; discriminate | intros e' He'; discriminate].
  - split; [split; reflexivity |].
    intros e' He'. inversion He'. subst. repeat split.
Qed.

Lemma gzip_that_does_not_open_witness :
  classify (FromURL (world plainNotGzip) address 5).1 = Some DecodeError /\
  err (FromURL (world plainNotGzip) address 5).1
    = Some (fmt_Errorf "failed to create gzip reader: %v" [gzip.ErrHeader]).
Proof.
  split.
  - apply (proj1 (gzip_that_does_not_open_is_a_decode_error (world plainNotGzip)
                    address 5 exampleURL exampleURL plainNotGzip
                    (obtains_address _) eq_refl)).
    reflexivity.
  - apply (proj2 (gzip_that_does_not_open_is_a_decode_error (world plainNotGzip)
                    address 5 exampleURL exampleURL plainNotGzip
                    (obtains_address _) eq_refl) gzip.ErrHeader eq_refl).
Defined.

(** C7: the gate lets a response through to [Parse] exactly when its
    [Content-Type] contains [text/html] somewhere, so parameters after
    it do not matter; any other value, and an absent header, ends the
    call with [UnsupportedContentType]. The response is one that came
    past the encoding switch, as every response at the gate has. *)
Theorem media_type_gate {Article} (E : Env Article)
    pageURL timeout parsedURL u resp :
  obtains E pageURL timeout parsedURL u resp ->
  declaresGzip resp = false \/ is_Ok (gzip.NewReader (http.Body resp)) = true ->
  (declaresHTML resp = true <->
   strings.Contains (http.Header_Get (http.RespHeader resp) "Content-Type") "text/html"
     = true) /\
  (left_at (FromURL E pageURL timeout).1 = line85 <-> declaresHTML resp = true) /\
  (length (parse_calls (FromURL E pageURL timeout).2) = 1 <-> declaresHTML resp = true) /\
  (classify (FromURL E pageURL timeout).1 = Some UnsupportedContentType <->
   declaresHTML resp = false) /\
  strings.Contains "text/html; charset=utf-8" "text/html" = true /\
  (http.RespHeader resp !! "Content-Type" = None -> declaresHTML resp = false).
Proof.
  intros H Hn.
  split; [reflexivity|].
  assert (Hlast : http.RespHeader resp !! "Content-Type" = None -> declaresHTML resp = false).
  { intros Hc. unfold declaresHTML, http.Header_Get. rewrite Hc. reflexivity. }
  by_path H resp; simpl;
    try (destruct Hn as [Hn|Hn]; discriminate);
    repeat split; try discriminate; try reflexivity; try assumption;
    try (intros; discriminate).
  - destruct (parser_Parse E (gzip.ReadAll (inflate E) z) parsedURL).2; discriminate.
  - destruct (parser_Parse E (http.Body resp, None) parsedURL).2; discriminate.
Qed.

Lemma media_type_gate_witness :
  left_at (FromURL (world htmlGzip) address 5).1 = line85 /\
  classify (FromURL (world unlabelled) address 5).1 = Some UnsupportedContentType.
Proof.
  split.
  - apply (proj2 (proj1 (proj2 (media_type_gate (world htmlGzip) address 5
             exampleURL exampleURL htmlGzip (obtains_address _)
             (or_intror eq_refl))))).
    reflexivity.
  - apply (proj2 (proj1 (proj2 (proj2 (proj2 (media_type_gate (world unlabelled) address 5
             exampleURL exampleURL unlabelled (obtains_address _)
             (or_introl eq_refl))))))).
    reflexivity.
Defined.

(** *** The transport, and what it returns *)

Ltac run_all :=
  unfold FromURL, call, FromURL_body, http_NewRequest, Client_Do, gzip_NewReader,
    Parser_Parse, fail, emit, defer, mbind, mret, M_bind, M_ret.

Lemma status_is_not_read {Article} (E : Env Article) f pageURL timeout :
  FromURL (withStatus E f) pageURL timeout = FromURL E pageURL timeout.
Proof.
  run_all. simpl.
  destruct (nurl.ParseRequestURI (parseAuthority E) pageURL); [|reflexivity].
  simpl. destruct (url_Parse E pageURL); [|reflexivity].
  simpl. destruct (client_Do E timeout _); reflexivity.
Qed.

Lemma last_url_is_not_read {Article} (E : Env Article) f pageURL timeout :
  FromURL (withLastURL E f) pageURL timeout = FromURL E pageURL timeout.
Proof.
  run_all. simpl.
  destruct (nurl.ParseRequestURI (parseAuthority E) pageURL); [|reflexivity].
  simpl. destruct (url_Parse E pageURL); [|reflexivity].
  simpl. destruct (client_Do E timeout _); reflexivity.
Qed.

(** The exit a call leaves through once it holds a response. *)
Lemma after_response_not_line58 {Article} (E : Env Article)
    pageURL timeout parsedURL u resp :
  obtains E pageURL timeout parsedURL u resp ->
  classify (FromURL E pageURL timeout).1 <> Some FetchError.
Proof.
  intros H. by_path H resp; simpl; try discriminate.
  - destruct (parser_Parse E (gzip.ReadAll (inflate E) z) parsedURL).2; discriminate.
  - destruct (parser_Parse E (http.Body resp, None) parsedURL).2; discriminate.
Qed.

(** A page answered with status 404 is parsed like any other. *)
Example not_found_page_is_parsed :
  http.StatusCode htmlIdentity = 404%Z /\
  (FromURL (world htmlIdentity) address 5).1
  = mkOutcome line85 (mkPage (bytes "<p>gone</p>") exampleURL) None.
Proof. split; reflexivity. Qed.

(** C8, as stated, fails on a URL whose scheme the client does not
    speak. In the stand-in environment the transport never fails: every
    [http] or [https] request is answered. Yet for an [ftp] URL, and
    for an absolute path, the client itself refuses the request, and
    the call ends with the fetch error around that refusal: no name was
    looked up, no connection tried, no time ran out. *)
Lemma fetch_error_without_a_transport_failure :
  (forall resp timeout req,
     String.eqb (nurl.Scheme (http.URL req)) "http"
     || String.eqb (nurl.Scheme (http.URL req)) "https" = true ->
     client_Do (world resp) timeout req = Ok resp) /\
  (forall resp,
     classify (FromURL (world resp) "ftp://example.com/a" 5).1 = Some FetchError /\
     err (FromURL (world resp) "ftp://example.com/a" 5).1
       = Some (fmt_Errorf "failed to fetch the page: %v"
                 [errors_New "unsupported protocol scheme"])) /\
  (forall resp,
     classify (FromURL (world resp) "/index.html" 5).1 = Some FetchError /\
     err (FromURL (world resp) "/index.html" 5).1
       = Some (fmt_Errorf "failed to fetch the page: %v"
                 [errors_New "unsupported protocol scheme"])).
Proof.
  split; [|split].
  - intros resp timeout req Hs. simpl. unfold serve. rewrite Hs. reflexivity.
  - intros resp. split; reflexivity.
  - intros resp. split; reflexivity.
Qed.

(** C8 (amended): the status code of a response plays no part: replacing the
    status code of every response leaves the result and the calls of
    [FromURL] as they were; and the call ends in [FetchError] exactly
    when [client.Do] itself returns an error rather than a response,
    whatever made it do so. *)
Theorem status_code_is_not_filtered {Article} (E : Env Article) pageURL timeout :
  (forall f, FromURL (withStatus E f) pageURL timeout = FromURL E pageURL timeout) /\
  (classify (FromURL E pageURL timeout).1 = Some FetchError <->
   exists parsedURL u e,
     nurl.ParseRequestURI (parseAuthority E) pageURL = Ok parsedURL /\
     url_Parse E pageURL = Ok u /\
     client_Do E timeout (request_for u) = Err e).
Proof.
  split; [intros f; apply status_is_not_read|].
  destruct (reaches E pageURL timeout)
    as [[e He] | (p & Hp & [[e He] | (u & Hu & [[e He] | [resp H]])])].
  - rewrite (path_line43 _ _ _ _ He). split; [discriminate|].
    intros (? & ? & ? & Hp' & _). congruence.
  - rewrite (path_line50 _ _ _ _ _ Hp He). split; [discriminate|].
    intros (? & ? & ? & _ & Hu' & _). congruence.
  - rewrite (path_line58 _ _ _ _ _ _ Hp Hu He). split; [|reflexivity].
    intros _. exists p, u, e. auto.
  - split.
    + intros Hc. destruct (after_response_not_line58 _ _ _ _ _ _ H Hc).
    + intros (p' & u' & e & _ & Hu' & He). destruct H as (_ & Hu'' & Hd).
      congruence.
Qed.

(** *** Release of the response *)

(** C9: once a response is held, whichever exit the call takes, its
    trace ends with the deferred closes and has no other: the gzip
    reader first, if one was made, then the body, each once. *)
Theorem response_is_released_once {Article} (E : Env Article)
    pageURL timeout parsedURL u resp :
  obtains E pageURL timeout parsedURL u resp ->
  let released :=
    if declaresGzip resp && is_Ok (gzip.NewReader (http.Body resp))
    then [GzipReader_Close; Body_Close] else [Body_Close] in
  closes (FromURL E pageURL timeout).2 = released /\
  exists before,
    (FromURL E pageURL timeout).2 = (before ++ map Close_call released)%list /\
    closes before = [].
Proof.
  intros H. by_path H resp; simpl; (split; [reflexivity|]).
  - exists [NewRequest_call "GET" pageURL; Do_call timeout (request_for u);
            NewReader_call (http.Body resp);
            Parse_call (gzip.ReadAll (inflate E) z) parsedURL]. split; reflexivity.
  - exists [NewRequest_call "GET" pageURL; Do_call timeout (request_for u);
            NewReader_call (http.Body resp)]. split; reflexivity.
  - exists [NewRequest_call "GET" pageURL; Do_call timeout (request_for u);
            NewReader_call (http.Body resp)]. split; reflexivity.
  - exists [NewRequest_call "GET" pageURL; Do_call timeout (request_for u);
            Parse_call (http.Body resp, None) parsedURL]. split; reflexivity.
  - exists [NewRequest_call "GET" pageURL; Do_call timeout (request_for u)].
    split; reflexivity.
Qed.

Lemma response_is_released_once_witness :
  closes (FromURL (world htmlGzip) address 5).2 = [GzipReader_Close; Body_Close] /\
  closes (FromURL (world plainNotGzip) address 5).2 = [Body_Close] /\
  closes (FromURL (world htmlIdentity) address 5).2 = [Body_Close].
Proof.
  split; [|split].
  - apply (proj1 (response_is_released_once (world htmlGzip) address 5
                    exampleURL exampleURL htmlGzip (obtains_address _))).
  - apply (proj1 (response_is_released_once (world plainNotGzip) address 5
                    exampleURL exampleURL plainNotGzip (obtains_address _))).
  - apply (proj1 (response_is_released_once (world htmlIdentity) address 5
                    exampleURL exampleURL htmlIdentity (obtains_address _))).
Defined.

(** *** The URL given to the engine *)

(** C10: whenever [Parse] is called, the URL it is given is the one
    parsed from the caller's string; the URL the response finally came
    from is not consulted, so the same call is made whatever that URL
    is. *)
Theorem engine_gets_the_input_url {Article} (E : Env Article)
    pageURL timeout input v :
  In (Parse_call input v) (FromURL E pageURL timeout).2 ->
  nurl.ParseRequestURI (parseAuthority E) pageURL = Ok v /\
  forall f, In (Parse_call input v) (FromURL (withLastURL E f) pageURL timeout).2.
Proof.
  intros Hin. split; [|intros f; rewrite last_url_is_not_read; exact Hin].
  destruct (reaches E pageURL timeout)
    as [[e He] | (p & Hp & [[e He] | (u & Hu & [[e He] | [resp H]])])].
  - rewrite (path_line43 _ _ _ _ He) in Hin. destruct Hin.
  - rewrite (path_line50 _ _ _ _ _ Hp He) in Hin. simpl in Hin.
    destruct Hin as [Hin|[]]. discriminate.
  - rewrite (path_line58 _ _ _ _ _ _ Hp Hu He) in Hin. simpl in Hin.
    destruct Hin as [Hin|[Hin|[]]]; discriminate.
  - destruct H as (Hp' & H'). assert (H : obtains E pageURL timeout p u resp) by (split; assumption).
    revert Hin. by_path H resp; simpl; intros Hin;
      repeat (destruct Hin as [Hin|Hin];
              [first [discriminate | inversion Hin; subst; exact Hp] |]);
      destruct Hin.
Qed.

Lemma engine_gets_the_input_url_witness :
  nurl.ParseRequestURI (parseAuthority (world htmlGzip)) address = Ok exampleURL /\
  http.LastURL htmlGzip = movedURL /\
  forall f, In (Parse_call (bytes "<p>hi</p>", None) exampleURL)
                (FromURL (withLastURL (world htmlGzip) f) address 5).2.
Proof.
  assert (Hin : In (Parse_call (bytes "<p>hi</p>", None) exampleURL)
                   (FromURL (world htmlGzip) address 5).2).
  { do 3 right. left. reflexivity. }
  split; [|split].
  - apply (proj1 (engine_gets_the_input_url (world htmlGzip) address 5 _ _ Hin)).
  - reflexivity.
  - apply (proj2 (engine_gets_the_input_url (world htmlGzip) address 5 _ _ Hin)).
Defined.

(** ** More properties of [FromURL] *)

Import surface.

Ltac all_paths E pageURL timeout :=
  let e := fresh "e" in
  let He := fresh "He" in
  let p := fresh "p" in
  let Hp := fresh "Hp" in
  let u := fresh "u" in
  let Hu := fresh "Hu" in
  let resp := fresh "resp" in
  let H := fresh "H" in
  destruct (reaches E pageURL timeout)
    as [[e He] | (p & Hp & [[e He] | (u & Hu & [[e He] | [resp H]])])];
  [ rewrite (path_line43 _ _ _ _ He)
  | rewrite (path_line50 _ _ _ _ _ Hp He)
  | rewrite (path_line58 _ _ _ _ _ _ Hp Hu He)
  | by_path H resp ].

(** X1: the calls of one [FromURL] are made in the order of its text,
    each at most once: at most one request is built and sent, at most
    one reader made, the engine called at most once, and the closes
    come last. *)
Theorem calls_follow_the_text {Article} (E : Env Article) pageURL timeout :
  increasing (map stage (FromURL E pageURL timeout).2) = true /\
  (length (builds (FromURL E pageURL timeout).2) <= 1)%nat /\
  (length (requests (FromURL E pageURL timeout).2) <= 1)%nat /\
  (length (wraps (FromURL E pageURL timeout).2) <= 1)%nat /\
  (length (parse_calls (FromURL E pageURL timeout).2) <= 1)%nat.
Proof.
  all_paths E pageURL timeout; simpl; repeat split; lia.
Qed.

(** X2: a request that is sent is the [GET] request for the caller's
    string, carrying the caller's timeout and the one header
    [Accept-Encoding: gzip]. *)
Theorem request_sent_is_get_with_gzip {Article} (E : Env Article)
    pageURL timeout t req :
  In (Do_call t req) (FromURL E pageURL timeout).2 ->
  t = timeout /\
  http.Method req = "GET" /\
  url_Parse E pageURL = Ok (http.URL req) /\
  http.ReqHeader req = {[ "Accept-Encoding" := ["gzip"] ]} /\
  builds (FromURL E pageURL timeout).2 = [("GET", pageURL)].
Proof.
  assert (Hh : forall u, http.ReqHeader (request_for u) = {[ "Accept-Encoding" := ["gzip"] ]}).
  { intros u. unfold request_for, http.Request_SetHeader, http.Header_Set. simpl.
    apply insert_empty. }
  all_paths E pageURL timeout; simpl; intros Hin;
    repeat (destruct Hin as [Hin|Hin];
            [first [discriminate
                   | inversion Hin; subst; repeat split;
                     first [apply Hh | exact Hu
                           | (destruct H as (_ & Hu' & _); exact Hu')
                           | reflexivity]] |]);
    destruct Hin.
Qed.

Lemma request_sent_is_get_with_gzip_witness :
  (5 = 5)%Z /\
  http.Method (request_for exampleURL) = "GET" /\
  url_Parse (world htmlGzip) address = Ok (http.URL (request_for exampleURL)) /\
  http.ReqHeader (request_for exampleURL) = {[ "Accept-Encoding" := ["gzip"] ]} /\
  builds (FromURL (world htmlGzip) address 5).2 = [("GET", address)].
Proof.
  apply (request_sent_is_get_with_gzip (world htmlGzip) address 5 5 (request_for exampleURL)).
  right. left. reflexivity.
Defined.

(** X3: when the URL is valid but the request cannot be built, the call
    ends with the request-build error made from the library's error;
    the client is never used and nothing is opened or closed. *)
Theorem request_build_failure {Article} (E : Env Article)
    pageURL timeout parsedURL e :
  nurl.ParseRequestURI (parseAuthority E) pageURL = Ok parsedURL ->
  url_Parse E pageURL = Err e ->
  classify (FromURL E pageURL timeout).1 = Some RequestBuildError /\
  err (FromURL E pageURL timeout).1
    = Some (fmt_Errorf "failed to create request: %v" [e]) /\
  requests (FromURL E pageURL timeout).2 = [] /\
  wraps (FromURL E pageURL timeout).2 = [] /\
  parse_calls (FromURL E pageURL timeout).2 = [] /\
  closes (FromURL E pageURL timeout).2 = [].
Proof.
  intros Hp Hu. rewrite (path_line50 _ _ _ _ _ Hp Hu). repeat split.
Qed.

Lemma request_build_failure_witness :
  classify (FromURL (worldWithParse htmlGzip) "mailto:joe#%zz" 5).1
    = Some RequestBuildError /\
  err (FromURL (worldWithParse htmlGzip) "mailto:joe#%zz" 5).1
    = Some (fmt_Errorf "failed to create request: %v"
              [url_Error "parse" "mailto:joe#%zz" (url_EscapeError "%zz")]) /\
  requests (FromURL (worldWithParse htmlGzip) "mailto:joe#%zz" 5).2 = [] /\
  wraps (FromURL (worldWithParse htmlGzip) "mailto:joe#%zz" 5).2 = [] /\
  parse_calls (FromURL (worldWithParse htmlGzip) "mailto:joe#%zz" 5).2 = [] /\
  closes (FromURL (worldWithParse htmlGzip) "mailto:joe#%zz" 5).2 = [].
Proof.
  apply (request_build_failure (worldWithParse htmlGzip) "mailto:joe#%zz" 5
           (nurl.mkURL "mailto" "joe#%zz" None "" "" false false "")).
  - reflexivity.
  - reflexivity.
Defined.

(** X4: when the client returns an error, the call ends with the fetch
    error made from it; no response is held, so nothing is closed, no
    reader is made and the engine is not called. *)
Theorem fetch_failure_closes_nothing {Article} (E : Env Article)
    pageURL timeout parsedURL u e :
  nurl.ParseRequestURI (parseAuthority E) pageURL = Ok parsedURL ->
  url_Parse E pageURL = Ok u ->
  client_Do E timeout (request_for u) = Err e ->
  err (FromURL E pageURL timeout).1
    = Some (fmt_Errorf "failed to fetch the page: %v" [e]) /\
  article (FromURL E pageURL timeout).1 = Article_zero E /\
  requests (FromURL E pageURL timeout).2 = [(timeout, request_for u)] /\
  wraps (FromURL E pageURL timeout).2 = [] /\
  parse_calls (FromURL E pageURL timeout).2 = [] /\
  closes (FromURL E pageURL timeout).2 = [].
Proof.
  intros Hp Hu Hd. rewrite (path_line58 _ _ _ _ _ _ Hp Hu Hd). repeat split.
Qed.

Lemma fetch_failure_closes_nothing_witness :
  err (FromURL (world htmlGzip) "ftp://example.com/a" 5).1
    = Some (fmt_Errorf "failed to fetch the page: %v"
              [errors_New "unsupported protocol scheme"]) /\
  article (FromURL (world htmlGzip) "ftp://example.com/a" 5).1
    = Article_zero (world htmlGzip) /\
  requests (FromURL (world htmlGzip) "ftp://example.com/a" 5).2
    = [(5%Z, request_for (nurl.mkURL "ftp" "" None "example.com" "/a" false false ""))] /\
  wraps (FromURL (world htmlGzip) "ftp://example.com/a" 5).2 = [] /\
  parse_calls (FromURL (world htmlGzip) "ftp://example.com/a" 5).2 = [] /\
  closes (FromURL (world htmlGzip) "ftp://example.com/a" 5).2 = [].
Proof.
  apply (fetch_failure_closes_nothing (world htmlGzip) "ftp://example.com/a" 5
           (nurl.mkURL "ftp" "" None "example.com" "/a" false false "")).
  - reflexivity.
  - reflexivity.
  - reflexivity.
Defined.

(** X5: on every exit but the last one the call returns the zero
    [Article] together with an error; an article and an error never
    come from two different places. *)
Theorem failures_return_the_zero_article {Article} (E : Env Article)
    pageURL timeout :
  left_at (FromURL E pageURL timeout).1 <> line85 ->
  article (FromURL E pageURL timeout).1 = Article_zero E /\
  exists e, err (FromURL E pageURL timeout).1 = Some e.
Proof.
  all_paths E pageURL timeout; simpl; intros Hx;
    first [ congruence | split; [reflexivity | eexists; reflexivity] ].
Qed.

Lemma failures_return_the_zero_article_witness :
  article (FromURL (world plainIdentity) address 5).1 = Article_zero (world plainIdentity) /\
  exists e, err (FromURL (world plainIdentity) address 5).1 = Some e.
Proof.
  apply (failures_return_the_zero_article (world plainIdentity) address 5).
  discriminate.
Defined.

(** X6: once the response is past the switch and the gate, [FromURL]
    returns just what [FromReader] returns on the stream of the reader
    (the body, or the gzip reader over it) and the URL parsed from the
    caller's string: article and error are handed back untouched. *)
Theorem from_url_is_from_reader_on_the_body {Article} (E : Env Article)
    pageURL timeout parsedURL u resp :
  obtains E pageURL timeout parsedURL u resp ->
  declaresHTML resp = true ->
  (declaresGzip resp = false ->
   (article (FromURL E pageURL timeout).1, err (FromURL E pageURL timeout).1)
   = FromReader E (http.Body resp, None) parsedURL) /\
  (forall z, declaresGzip resp = true ->
   gzip.NewReader (http.Body resp) = Ok z ->
   (article (FromURL E pageURL timeout).1, err (FromURL E pageURL timeout).1)
   = FromReader E (gzip.ReadAll (inflate E) z) parsedURL).
Proof.
  intros H Hh. split.
  - intros Hg. rewrite (path_plain_line85 _ _ _ _ _ _ H Hg Hh). simpl.
    unfold FromReader. destruct (parser_Parse E _ _). reflexivity.
  - intros z Hg Hz. rewrite (path_gzip_line85 _ _ _ _ _ _ _ H Hg Hz Hh). simpl.
    unfold FromReader. destruct (parser_Parse E _ _). reflexivity.
Qed.

Lemma from_url_is_from_reader_witness :
  (article (FromURL (world htmlIdentity) address 5).1,
   err (FromURL (world htmlIdentity) address 5).1)
  = FromReader (world htmlIdentity) (bytes "<p>gone</p>", None) exampleURL.
Proof.
  apply (proj1 (from_url_is_from_reader_on_the_body (world htmlIdentity) address 5
                  exampleURL exampleURL htmlIdentity (obtains_address _) eq_refl)).
  reflexivity.
Defined.

(** X7: a call that does not reach the last line has consulted neither
    the decompressor nor the engine: with any other two in their place
    it returns the same and makes the same calls. In particular a
    response refused at the gate is never decompressed. *)
Theorem early_exits_ignore_the_engine {Article} (E : Env Article)
    pageURL timeout inflate' parse' :
  left_at (FromURL E pageURL timeout).1 <> line85 ->
  FromURL (withEngine E inflate' parse') pageURL timeout = FromURL E pageURL timeout.
Proof.
  unfold FromURL, call, FromURL_body, http_NewRequest, Client_Do, gzip_NewReader,
    Parser_Parse, fail, emit, defer, mbind, mret, M_bind, M_ret. simpl.
  destruct (nurl.ParseRequestURI (parseAuthority E) pageURL); [|reflexivity].
  simpl. destruct (url_Parse E pageURL); [|reflexivity].
  simpl. destruct (client_Do E timeout _) as [resp|]; [|reflexivity].
  simpl. destruct (String.eqb _ "gzip").
  - simpl. destruct (gzip.NewReader (http.Body resp)); [|reflexivity].
    simpl. destruct (strings.Contains _ "text/html"); simpl; [congruence|reflexivity].
  - simpl. destruct (strings.Contains _ "text/html"); simpl; [congruence|reflexivity].
Qed.

Lemma early_exits_ignore_the_engine_witness :
  FromURL (withEngine (world plainBrokenStream)
             (fun _ => ([], Err io.EOF)) (fun _ u => (mkPage [] u, None))) address 5
  = FromURL (world plainBrokenStream) address 5.
Proof.
  apply (early_exits_ignore_the_engine (world plainBrokenStream) address 5).
  discriminate.
Defined.

(** *** The gate as containment *)

Lemma HasPrefix_spec s prefix :
  strings.HasPrefix s prefix = true <-> exists post, s = prefix ++ post.
Proof.
  revert s. induction prefix as [|b prefix IH]; intros s; cbn [strings.HasPrefix].
  - split; [intros _; exists s; reflexivity | reflexivity].
  - destruct s as [|a s].
    + split; [discriminate | intros [post Hp]; discriminate].
    + destruct (Ascii.eqb_spec a b) as [->|Hne]; cbn [andb].
      * rewrite IH. split; intros [post Hp]; exists post.
        -- simpl. rewrite Hp. reflexivity.
        -- simpl in Hp. inversion Hp. reflexivity.
      * split; [discriminate | intros [post Hp]; simpl in Hp; inversion Hp; contradiction].
Qed.

Lemma Contains_spec s substr :
  strings.Contains s substr = true <-> exists pre post, s = pre ++ substr ++ post.
Proof.
  induction s as [|a s IH]; cbn [strings.Contains].
  - rewrite orb_false_r, HasPrefix_spec. split.
    + intros [post Hp]. exists EmptyString, post. exact Hp.
    + intros (pre & post & Hp). destruct pre as [|c pre]; [|discriminate].
      exists post. exact Hp.
  - rewrite orb_true_iff, HasPrefix_spec, IH. split.
    + intros [[post Hp] | (pre & post & Hp)].
      * exists EmptyString, post. exact Hp.
      * exists (String a pre), post. simpl. rewrite Hp. reflexivity.
    + intros (pre & post & Hp). destruct pre as [|c pre].
      * left. exists post. exact Hp.
      * right. simpl in Hp. inversion Hp. eauto.
Qed.

(** X8: a response past the encoding switch reaches the engine exactly
    when its [Content-Type] value has [text/html] somewhere inside it,
    whatever text comes before or after (the test is on bytes: case
    matters, and no media-type syntax is read). *)
Theorem html_anywhere_in_the_content_type {Article} (E : Env Article)
    pageURL timeout parsedURL u resp :
  obtains E pageURL timeout parsedURL u resp ->
  declaresGzip resp = false \/ is_Ok (gzip.NewReader (http.Body resp)) = true ->
  (left_at (FromURL E pageURL timeout).1 = line85 <->
   exists pre post,
     http.Header_Get (http.RespHeader resp) "Content-Type" = pre ++ "text/html" ++ post).
Proof.
  intros H Hn.
  assert (Hc : declaresHTML resp = true <->
               exists pre post,
                 http.Header_Get (http.RespHeader resp) "Content-Type"
                 = pre ++ "text/html" ++ post) by apply Contains_spec.
  rewrite <- Hc.
  by_path H resp; simpl; try (destruct Hn as [Hn|Hn]; discriminate);
    split; intros Hx; first [reflexivity | discriminate].
Qed.

Lemma html_anywhere_in_the_content_type_witness :
  left_at (FromURL (world htmlGzip) address 5).1 = line85.
Proof.
  apply (proj2 (html_anywhere_in_the_content_type (world htmlGzip) address 5
                  exampleURL exampleURL htmlGzip (obtains_address _)
                  (or_intror eq_refl))).
  exists EmptyString, "; charset=utf-8". reflexivity.
Defined.

(** *** Bodies that cannot be gzip *)

(** X9: a response that declares gzip and has fewer than ten bytes of
    body (none at all included) ends the call with the decode error:
    around [EOF] for an empty body, around [unexpected EOF] otherwise. *)
Theorem short_gzip_body_is_a_decode_error {Article} (E : Env Article)
    pageURL timeout parsedURL u resp :
  obtains E pageURL timeout parsedURL u resp ->
  declaresGzip resp = true ->
  (length (http.Body resp) < 10)%nat ->
  classify (FromURL E pageURL timeout).1 = Some DecodeError /\
  err (FromURL E pageURL timeout).1
    = Some (fmt_Errorf "failed to create gzip reader: %v"
              [match http.Body resp with [] => io.EOF | _ => io.ErrUnexpectedEOF end]) /\
  closes (FromURL E pageURL timeout).2 = [Body_Close].
Proof.
  intros H Hg Hl.
  assert (Hz : gzip.NewReader (http.Body resp)
               = Err match http.Body resp with [] => io.EOF | _ => io.ErrUnexpectedEOF end).
  { unfold gzip.NewReader, gzip.readHeader, io.ReadFull. cbn [Nat.eqb].
    destruct (http.Body resp) as [|b r]; [reflexivity|].
    cbn [length Nat.eqb] in *.
    replace (S (length r) <? 10)%nat with true by (symmetry; apply Nat.ltb_lt; lia).
    reflexivity. }
  rewrite (path_line69 _ _ _ _ _ _ _ H Hg Hz). repeat split.
Qed.

Lemma short_gzip_body_witness :
  classify (FromURL (world shortGzip) address 5).1 = Some DecodeError /\
  err (FromURL (world shortGzip) address 5).1
    = Some (fmt_Errorf "failed to create gzip reader: %v" [io.ErrUnexpectedEOF]) /\
  closes (FromURL (world shortGzip) address 5).2 = [Body_Close].
Proof.
  apply (short_gzip_body_is_a_decode_error (world shortGzip) address 5
           exampleURL exampleURL shortGzip (obtains_address _) eq_refl).
  simpl. lia.
Defined.

Lemma at_firstn n buf i :
  (i < n)%nat -> gzip.at_ (firstn n buf) i = gzip.at_ buf i.
Proof.
  intros Hi. unfold gzip.at_. f_equal.
  revert n buf Hi. induction i as [|i IH]; intros n buf Hi.
  - destruct n; [lia|]. destruct buf; reflexivity.
  - destruct n; [lia|]. destruct buf; [reflexivity|]. simpl. apply IH. lia.
Qed.

(** X10: a response that declares gzip and whose body, of ten bytes or
    more, does not start with the bytes 1f 8b 08 ends the call with the
    decode error around [gzip: invalid header], whatever follows. *)
Theorem body_without_gzip_magic_is_a_decode_error {Article} (E : Env Article)
    pageURL timeout parsedURL u resp :
  obtains E pageURL timeout parsedURL u resp ->
  declaresGzip resp = true ->
  (10 <= length (http.Body resp))%nat ->
  (gzip.at_ (http.Body resp) 0 =? 31)%Z && (gzip.at_ (http.Body resp) 1 =? 139)%Z
    && (gzip.at_ (http.Body resp) 2 =? 8)%Z = false ->
  classify (FromURL E pageURL timeout).1 = Some DecodeError /\
  err (FromURL E pageURL timeout).1
    = Some (fmt_Errorf "failed to create gzip reader: %v" [gzip.ErrHeader]) /\
  parse_calls (FromURL E pageURL timeout).2 = [].
Proof.
  intros H Hg Hl Hm.
  assert (Hz : gzip.NewReader (http.Body resp) = Err gzip.ErrHeader).
  { unfold gzip.NewReader, gzip.readHeader, io.ReadFull. cbn [Nat.eqb].
    destruct (length (http.Body resp) =? 0)%nat eqn:H0;
      [apply Nat.eqb_eq in H0; lia|].
    replace (length (http.Body resp) <? 10)%nat with false
      by (symmetry; apply Nat.ltb_ge; lia).
    rewrite !at_firstn by lia. rewrite Hm. reflexivity. }
  rewrite (path_line69 _ _ _ _ _ _ _ H Hg Hz). repeat split.
Qed.

Lemma body_without_gzip_magic_witness :
  classify (FromURL (world notGzipMagic) address 5).1 = Some DecodeError /\
  err (FromURL (world notGzipMagic) address 5).1
    = Some (fmt_Errorf "failed to create gzip reader: %v" [gzip.ErrHeader]) /\
  parse_calls (FromURL (world notGzipMagic) address 5).2 = [].
Proof.
  apply (body_without_gzip_magic_is_a_decode_error (world notGzipMagic) address 5
           exampleURL exampleURL notGzipMagic (obtains_address _) eq_refl).
  - simpl. lia.
  - reflexivity.
Defined.

(** *** More on the validator *)

(** X11: the empty string and every string with an ASCII control byte
    in it (below 0x20, or 0x7f) are refused by the validator: the call
    ends with the invalid-URL error and has made no call. *)
Theorem empty_or_control_url_is_invalid {Article} (E : Env Article) pageURL timeout :
  pageURL = "" \/ nurl.stringContainsCTLByte pageURL = true ->
  FromURL E pageURL timeout =
    (mkOutcome line43 (Article_zero E)
       (Some (fmt_Errorf "failed to parse URL: %v"
                [url_Error "parse" pageURL
                   (errors_New (if nurl.stringContainsCTLByte pageURL
                                then "net/url: invalid control character in URL"
                                else "empty url"))])),
     []).
Proof.
  intros Hs. apply path_line43.
  unfold nurl.ParseRequestURI, nurl.parse.
  destruct (nurl.stringContainsCTLByte pageURL); [reflexivity|].
  destruct Hs as [->|Hs]; [reflexivity | discriminate].
Qed.

Lemma empty_or_control_url_witness :
  FromURL (world htmlGzip) ("http://example.com/a" ++ String "010"%char "") 5 =
    (mkOutcome line43 (Article_zero (world htmlGzip))
       (Some (fmt_Errorf "failed to parse URL: %v"
                [url_Error "parse" ("http://example.com/a" ++ String "010"%char "")
                   (errors_New "net/url: invalid control character in URL")])),
     []).
Proof.
  apply (empty_or_control_url_is_invalid (world htmlGzip)
           ("http://example.com/a" ++ String "010"%char "") 5).
  right. reflexivity.
Defined.

Lemma accepted_leaves_later {Article} (E : Env Article) pageURL timeout u :
  nurl.ParseRequestURI (parseAuthority E) pageURL = Ok u ->
  left_at (FromURL E pageURL timeout).1 <> line43 /\
  builds (FromURL E pageURL timeout).2 = [("GET", pageURL)].
Proof.
  intros Hok. all_paths E pageURL timeout; simpl; try congruence;
    split; first [discriminate | reflexivity].
Qed.

(** X12: a string that starts with a scheme and does not go on with a
    slash (as [mailto:] addresses do) passes the validator without its
    authority ever being looked for: the parsed URL has the scheme in
    lower case and no host, and the call goes on to build a request. *)
Theorem rootless_uri_passes_the_validator {Article} (E : Env Article)
    pageURL timeout scheme rest :
  nurl.stringContainsCTLByte pageURL = false ->
  nurl.getScheme pageURL = Ok (scheme, rest) ->
  scheme <> "" ->
  strings.HasPrefix rest "/" = false ->
  (exists u,
     nurl.ParseRequestURI (parseAuthority E) pageURL = Ok u /\
     nurl.Scheme u = strings.ToLower scheme /\
     nurl.Host u = "" /\ nurl.User u = None /\ nurl.Path u = "") /\
  left_at (FromURL E pageURL timeout).1 <> line43 /\
  builds (FromURL E pageURL timeout).2 = [("GET", pageURL)].
Proof.
  intros Hc Hs Hne Hr.
  assert (Hok : exists u,
     nurl.ParseRequestURI (parseAuthority E) pageURL = Ok u /\
     nurl.Scheme u = strings.ToLower scheme /\
     nurl.Host u = "" /\ nurl.User u = None /\ nurl.Path u = "").
  { unfold nurl.ParseRequestURI, nurl.parse. rewrite Hc.
    destruct (String.eqb pageURL "") eqn:Hempty.
    { apply String.eqb_eq in Hempty. rewrite Hempty in Hs. cbv in Hs.
      inversion Hs. congruence. }
    cbn [andb].
    destruct (String.eqb pageURL "*") eqn:Hstar.
    { apply String.eqb_eq in Hstar. rewrite Hstar in Hs. cbv in Hs.
      inversion Hs. congruence. }
    rewrite Hs.
    assert (Hl : String.eqb (strings.ToLower scheme) "" = false).
    { destruct scheme; [congruence | reflexivity]. }
    destruct (strings.HasSuffixByte rest "?" && (strings.CountByte rest "?" =? 1)%nat).
    - destruct (strings.HasPrefix (strings.dropLast rest) "/") eqn:Hd.
      { apply dropLast_slash in Hd. congruence. }
      cbn [negb]. rewrite Hl. cbn [negb]. eexists. repeat split.
    - destruct (strings.CutByte rest "?") as [[b af] f] eqn:Hcut.
      destruct (strings.HasPrefix b "/") eqn:Hd.
      { assert (Hb : b = (strings.CutByte rest "?").1.1) by (rewrite Hcut; reflexivity).
        rewrite Hb in Hd. apply CutByte_slash in Hd. congruence. }
      cbn [negb]. rewrite Hl. cbn [negb]. eexists. repeat split. }
  split; [exact Hok|].
  destruct Hok as (u & Hu & _). exact (accepted_leaves_later E pageURL timeout u Hu).
Qed.

Lemma rootless_uri_witness :
  (exists u,
     nurl.ParseRequestURI (parseAuthority (world htmlGzip)) "MailTo:joe@example.com" = Ok u /\
     nurl.Scheme u = "mailto" /\
     nurl.Host u = "" /\ nurl.User u = None /\ nurl.Path u = "") /\
  left_at (FromURL (world htmlGzip) "MailTo:joe@example.com" 5).1 <> line43 /\
  builds (FromURL (world htmlGzip) "MailTo:joe@example.com" 5).2
    = [("GET", "MailTo:joe@example.com")].
Proof.
  apply (rootless_uri_passes_the_validator (world htmlGzip) "MailTo:joe@example.com" 5
           "MailTo" "joe@example.com").
  - reflexivity.
  - reflexivity.
  - discriminate.
  - reflexivity.
Defined.

(** *** What of a response is read *)

(** X13: of a response, [FromURL] reads the first [Content-Encoding]
    value, the first [Content-Type] value and the body, and nothing
    else: responses that agree on these three give the same result and
    the same calls, whatever their status, other headers or last URL. *)
Theorem only_two_headers_and_the_body_are_read {Article} (E : Env Article)
    pageURL timeout (f : http.Response -> http.Response) :
  (forall resp,
     http.Header_Get (http.RespHeader (f resp)) "Content-Encoding"
       = http.Header_Get (http.RespHeader resp) "Content-Encoding" /\
     http.Header_Get (http.RespHeader (f resp)) "Content-Type"
       = http.Header_Get (http.RespHeader resp) "Content-Type" /\
     http.Body (f resp) = http.Body resp) ->
  FromURL (mapResponse E f) pageURL timeout = FromURL E pageURL timeout.
Proof.
  intros Hf.
  unfold FromURL, call, FromURL_body, http_NewRequest, Client_Do, gzip_NewReader,
    Parser_Parse, fail, emit, defer, mbind, mret, M_bind, M_ret. simpl.
  destruct (nurl.ParseRequestURI (parseAuthority E) pageURL); [|reflexivity].
  simpl. destruct (url_Parse E pageURL); [|reflexivity].
  simpl. destruct (client_Do E timeout _) as [resp|]; [|reflexivity].
  simpl. destruct (Hf resp) as (Hce & Hct & Hb). rewrite Hce, Hct, Hb. reflexivity.
Qed.

Lemma only_two_headers_and_the_body_witness :
  FromURL (mapResponse (world htmlGzip) relabel) address 5
  = FromURL (world htmlGzip) address 5.
Proof.
  apply (only_two_headers_and_the_body_are_read (world htmlGzip) address 5 relabel).
  intros resp. unfold relabel, http.Header_Get. simpl.
  rewrite !lookup_insert_ne by discriminate. repeat split.
Defined.

Lemma unescape_no_percent s :
  strings.CountByte s "%" = 0%nat -> nurl.unescape_encodePath s = Ok s.
Proof.
  induction s as [|c s IH]; [reflexivity|].
  cbn [strings.CountByte nurl.unescape_encodePath].
  destruct (Ascii.eqb c "%"); [discriminate|].
  intros Hn. rewrite IH by exact Hn. reflexivity.
Qed.

Lemma CountByte_dropLast s c :
  strings.CountByte s c = 0%nat -> strings.CountByte (strings.dropLast s) c = 0%nat.
Proof.
  induction s as [|a s IH]; [reflexivity|].
  cbn [strings.CountByte strings.dropLast]. intros Hn.
  destruct s as [|b s]; [reflexivity|].
  cbn [strings.CountByte] in *. destruct (Ascii.eqb a c); [discriminate|].
  apply IH. exact Hn.
Qed.

Lemma CountByte_CutByte s sep c :
  strings.CountByte s c = 0%nat -> strings.CountByte (strings.CutByte s sep).1.1 c = 0%nat.
Proof.
  induction s as [|a s IH]; [reflexivity|].
  cbn [strings.CountByte strings.CutByte]. intros Hn.
  destruct (Ascii.eqb a sep); [reflexivity|].
  destruct (strings.CutByte s sep) as [[b af] f]. cbn [fst strings.CountByte] in *.
  destruct (Ascii.eqb a c); [discriminate|]. apply IH. exact Hn.
Qed.

(** X14: every absolute path without a control byte or a percent sign
    passes the validator, although it names no scheme and no host: the
    parsed URL has neither, and the call goes on to build a request for
    the path. *)
Theorem absolute_paths_pass_the_validator {Article} (E : Env Article)
    pageURL timeout :
  strings.HasPrefix pageURL "/" = true ->
  nurl.stringContainsCTLByte pageURL = false ->
  strings.CountByte pageURL "%" = 0%nat ->
  (exists u,
     nurl.ParseRequestURI (parseAuthority E) pageURL = Ok u /\
     nurl.Scheme u = "" /\ nurl.Host u = "" /\ nurl.User u = None /\
     strings.HasPrefix (nurl.Path u) "/" = true) /\
  left_at (FromURL E pageURL timeout).1 <> line43 /\
  builds (FromURL E pageURL timeout).2 = [("GET", pageURL)].
Proof.
  intros Hp Hc Hn.
  assert (Hok : exists u,
     nurl.ParseRequestURI (parseAuthority E) pageURL = Ok u /\
     nurl.Scheme u = "" /\ nurl.Host u = "" /\ nurl.User u = None /\
     strings.HasPrefix (nurl.Path u) "/" = true).
  { apply HasPrefix_slash in Hp. destruct Hp as [t ->].
    unfold nurl.ParseRequestURI, nurl.parse. rewrite Hc.
    change (nurl.getScheme (String "/" t)) with (@Ok (string * string) ("", String "/" t)).
    change (String.eqb (String "/" t) "" && true) with false.
    change (String.eqb (String "/" t) "*") with false.
    cbv iota beta. cbn [strings.ToLower].
    destruct (strings.HasSuffixByte (String "/" t) "?"
              && (strings.CountByte (String "/" t) "?" =? 1)%nat) eqn:Hq.
    - destruct t as [|b t]; [discriminate|].
      apply CountByte_dropLast in Hn.
      cbn [strings.dropLast] in *.
      change (strings.HasPrefix (String "/" (strings.dropLast (String b t))) "/") with true.
      cbn [negb]. unfold nurl.parseHierarchy, nurl.setPath. cbn [nurl.Scheme String.eqb negb orb andb].
      rewrite (unescape_no_percent _ Hn). eexists. repeat split.
    - apply (CountByte_CutByte _ "?") in Hn.
      cbn [strings.CutByte] in *.
      change (Ascii.eqb "/" "?") with false in *. cbv iota in *.
      destruct (strings.CutByte t "?") as [[b af] f]. cbn [fst] in Hn.
      change (strings.HasPrefix (String "/" b) "/") with true.
      cbn [negb]. unfold nurl.parseHierarchy, nurl.setPath. cbn [nurl.Scheme String.eqb negb orb andb].
      rewrite (unescape_no_percent _ Hn). eexists. repeat split. }
  split; [exact Hok|].
  destruct Hok as (u & Hu & _). exact (accepted_leaves_later E pageURL timeout u Hu).
Qed.

Lemma absolute_paths_witness :
  (exists u,
     nurl.ParseRequestURI (parseAuthority (world htmlGzip)) "/search?q=rocq" = Ok u /\
     nurl.Scheme u = "" /\ nurl.Host u = "" /\ nurl.User u = None /\
     strings.HasPrefix (nurl.Path u) "/" = true) /\
  left_at (FromURL (world htmlGzip) "/search?q=rocq" 5).1 <> line43 /\
  builds (FromURL (world htmlGzip) "/search?q=rocq" 5).2 = [("GET", "/search?q=rocq")].
Proof.
  apply (absolute_paths_pass_the_validator (world htmlGzip) "/search?q=rocq" 5).
  - reflexivity.
  - reflexivity.
  - reflexivity.
Defined.

Lemma CountByte_app s1 s2 c :
  strings.CountByte (s1 ++ s2) c = (strings.CountByte s1 c + strings.CountByte s2 c)%nat.
Proof.
  induction s1 as [|a s1 IH]; [reflexivity|].
  simpl. rewrite IH. lia.
Qed.

Lemma CutByte_absent s c :
  strings.CountByte s c = 0%nat -> strings.CutByte s c = (s, "", false).
Proof.
  induction s as [|a s IH]; [reflexivity|].
  cbn [strings.CountByte strings.CutByte].
  destruct (Ascii.eqb a c); [discriminate|].
  intros Hn. rewrite IH by exact Hn. reflexivity.
Qed.

Lemma CutByte_at_first s c tail :
  strings.CountByte s c = 0%nat ->
  strings.CutByte (s ++ String c tail) c = (s, tail, true).
Proof.
  induction s as [|a s IH]; simpl.
  - rewrite Ascii.eqb_refl. reflexivity.
  - destruct (Ascii.eqb a c); [discriminate|].
    intros Hn. rewrite IH by exact Hn. reflexivity.
Qed.

Lemma HasSuffixByte_counts s c :
  strings.HasSuffixByte s c = true -> strings.CountByte s c <> 0%nat.
Proof.
  induction s as [|a s IH]; [discriminate|].
  cbn [strings.HasSuffixByte strings.CountByte].
  destruct s as [|b s].
  - intros ->. discriminate.
  - intros Hs. specialize (IH Hs). lia.
Qed.

Lemma substring_whole s : substring 0 (String.length s) s = s.
Proof. induction s as [|a s IH]; [reflexivity|]. simpl. rewrite IH. reflexivity. Qed.

Lemma append_empty s : s ++ "" = s.
Proof.
  induction s as [|a s IH]; [reflexivity|].
  change (String a s ++ "") with (String a (s ++ "")). rewrite IH. reflexivity.
Qed.

Lemma after_slashes s :
  substring 2 (String.length ("//" ++ s) - 2) ("//" ++ s) = s.
Proof.
  change ("//" ++ s) with (String "/" (String "/" s)).
  simpl. rewrite Nat.sub_0_r. apply substring_whole.
Qed.

(** X15: the usual case. For [scheme://authority] followed by nothing
    or by a path that starts with a slash, with no control byte, no
    [?] and no [%] in the path, the validator decides as the library
    decides on the authority under that scheme: if it takes the
    authority as [user] and [host], the URL given on has the scheme in
    lower case, that user and host, and the path as written; if it
    refuses the authority, the call ends with the invalid-URL error
    around that refusal. *)
Theorem hierarchical_url_is_split_at_the_authority {Article} (E : Env Article)
    pageURL timeout scheme authority path :
  nurl.stringContainsCTLByte pageURL = false ->
  nurl.getScheme pageURL = Ok (scheme, "//" ++ authority ++ path) ->
  scheme <> "" ->
  strings.CountByte authority "/" = 0%nat ->
  strings.CountByte authority "?" = 0%nat ->
  strings.CountByte path "?" = 0%nat ->
  strings.CountByte path "%" = 0%nat ->
  path = "" \/ strings.HasPrefix path "/" = true ->
  nurl.ParseRequestURI (parseAuthority E) pageURL =
    match parseAuthority E (strings.ToLower scheme) authority with
    | Ok (user, host) =>
        Ok (nurl.mkURL (strings.ToLower scheme) "" user host path false false "")
    | Err e => Err (url_Error "parse" pageURL e)
    end /\
  (is_Ok (parseAuthority E (strings.ToLower scheme) authority) = false ->
   classify (FromURL E pageURL timeout).1 = Some InvalidURL /\
   (FromURL E pageURL timeout).2 = []).
Proof.
  intros Hc Hs Hne Ha Haq Hpq Hpp Hpath.
  assert (Hparse : nurl.ParseRequestURI (parseAuthority E) pageURL =
    match parseAuthority E (strings.ToLower scheme) authority with
    | Ok (user, host) =>
        Ok (nurl.mkURL (strings.ToLower scheme) "" user host path false false "")
    | Err e => Err (url_Error "parse" pageURL e)
    end).
  { unfold nurl.ParseRequestURI, nurl.parse. rewrite Hc.
    destruct (String.eqb pageURL "") eqn:Hempty.
    { apply String.eqb_eq in Hempty. rewrite Hempty in Hs. cbv in Hs.
      inversion Hs; congruence. }
    cbn [andb].
    destruct (String.eqb pageURL "*") eqn:Hstar.
    { apply String.eqb_eq in Hstar. rewrite Hstar in Hs. cbv in Hs.
      inversion Hs; congruence. }
    rewrite Hs.
    assert (Hl : String.eqb (strings.ToLower scheme) "" = false).
    { destruct scheme; [congruence | reflexivity]. }
    assert (Hq : strings.CountByte ("//" ++ authority ++ path) "?" = 0%nat).
    { rewrite !CountByte_app, Haq, Hpq. reflexivity. }
    destruct (strings.HasSuffixByte ("//" ++ authority ++ path) "?") eqn:Hsuf.
    { apply HasSuffixByte_counts in Hsuf. congruence. }
    cbn [andb]. rewrite (CutByte_absent _ _ Hq).
    change (strings.HasPrefix ("//" ++ authority ++ path) "/") with true.
    cbn [negb]. unfold nurl.parseHierarchy. cbn [nurl.Scheme].
    rewrite Hl. cbn [negb orb andb].
    change (strings.HasPrefix ("//" ++ authority ++ path) "//") with true.
    cbv iota.
    rewrite after_slashes.
    assert (Hcut : (let '(a, tail, found) := strings.CutByte (authority ++ path) "/" in
                    (a, if found then String "/" tail else "")) = (authority, path)).
    { destruct Hpath as [->|Hp].
      - rewrite append_empty, (CutByte_absent _ _ Ha). reflexivity.
      - apply HasPrefix_slash in Hp. destruct Hp as [t ->].
        rewrite (CutByte_at_first _ _ _ Ha). reflexivity. }
    destruct (strings.CutByte (authority ++ path) "/") as [[a tail] found].
    inversion Hcut as [[Ha' Hp']]. rewrite Hp'.
    destruct (parseAuthority E (strings.ToLower scheme) authority) as [[user host]|e]; [|reflexivity].
    unfold nurl.setPath. rewrite (unescape_no_percent _ Hpp). reflexivity. }
  split; [exact Hparse|].
  intros Hbad. destruct (parseAuthority E (strings.ToLower scheme) authority) as [[user host]|e]; [discriminate|].
  rewrite (path_line43 _ _ _ _ Hparse). split; reflexivity.
Qed.

Lemma hierarchical_url_witness :
  nurl.ParseRequestURI (parseAuthority (world htmlGzip)) "HTTPS://example.com/a/b"
  = Ok (nurl.mkURL "https" "" None "example.com" "/a/b" false false "") /\
  classify (FromURL (world htmlGzip) "http://[::1/a" 5).1 = Some InvalidURL /\
  (FromURL (world htmlGzip) "http://[::1/a" 5).2 = [] /\
  nurl.ParseRequestURI (parseAuthority (worldByScheme htmlGzip)) "postgres://a:b:80/x"
  = Ok (nurl.mkURL "postgres" "" None "a:b:80" "/x" false false "") /\
  classify (FromURL (worldByScheme htmlGzip) "http://a:b:80/x" 5).1 = Some InvalidURL.
Proof.
  split; [|split; [|split; [|split]]].
  - apply (proj1 (hierarchical_url_is_split_at_the_authority (world htmlGzip)
             "HTTPS://example.com/a/b" 5 "HTTPS" "example.com" "/a/b"
             eq_refl eq_refl ltac:(discriminate) eq_refl eq_refl eq_refl eq_refl
             (or_intror eq_refl))).
  - apply (proj2 (hierarchical_url_is_split_at_the_authority (world htmlGzip)
             "http://[::1/a" 5 "http" "[::1" "/a"
             eq_refl eq_refl ltac:(discriminate) eq_refl eq_refl eq_refl eq_refl
             (or_intror eq_refl))).
    reflexivity.
  - apply (proj2 (hierarchical_url_is_split_at_the_authority (world htmlGzip)
             "http://[::1/a" 5 "http" "[::1" "/a"
             eq_refl eq_refl ltac:(discriminate) eq_refl eq_refl eq_refl eq_refl
             (or_intror eq_refl))).
    reflexivity.
  - apply (proj1 (hierarchical_url_is_split_at_the_authority (worldByScheme htmlGzip)
             "postgres://a:b:80/x" 5 "postgres" "a:b:80" "/x"
             eq_refl eq_refl ltac:(discriminate) eq_refl eq_refl eq_refl eq_refl
             (or_intror eq_refl))).
  - apply (proj2 (hierarchical_url_is_split_at_the_authority (worldByScheme htmlGzip)
             "http://a:b:80/x" 5 "http" "a:b:80" "/x"
             eq_refl eq_refl ltac:(discriminate) eq_refl eq_refl eq_refl eq_refl
             (or_intror eq_refl))).
    reflexivity.
Defined.
